(** * apod_desktop: the APOD download-and-wallpaper script

    A shallow embedding of [apod_desktop.py].  The script is a straight
    line of calls into the operating system, the network, [hashlib] and
    [sqlite3]; each function of the script is written here as a
    computation over an explicit world (files, standard output, network
    log, wallpaper calls) that ends by returning, by [exit(...)], or by an
    uncaught exception.

    The library calls the script makes are modelled as far as the script
    uses them: [str.split], [ntpath.join] (the script drives
    [ctypes.windll], so [os.path] is [ntpath]), [datetime.strptime] with
    the format [%Y-%m-%d], [hashlib.sha256], and the three SQL statements
    handed to [sqlite3].  What the operating system and the remote servers
    answer is an input of the run ([env]).

    Conventions of the model:
    - a string is a sequence of 8-bit characters; the only decimal digits
      among them are [0] to [9].  Text with other characters (a date
      typed in full-width digits, which [\d] matches as well) is outside
      the model;
    - a file is known by the path text it was opened with; two spellings
      of one path are two keys;
    - a file is raw bytes or an SQLite database; the empty file is the
      empty database and any other raw file is read as "not a database".
      Bytes that happen to be the image of a database file are read so
      too: of a catalog that the downloaded image has been written over,
      the properties below state the bytes the file holds and nothing
      else;
    - [connect] creates a missing database file at once, as SQLite does.
      Its argument is taken as a file name: the names [:memory:] and the
      empty name, which SQLite gives a private database, are not
      modelled: where a property of [create_image_db] or of
      [image_already_in_db] would differ at these names, it is stated for
      other names ([main] opens [join(dir, 'apod_images.db')] only);
    - a statement is compiled before the database is read, so a syntax
      error is reported whatever the file holds;
    - a comparison in a WHERE clause compares the values as they are
      stored; the conversions SQLite applies by column affinity are not
      modelled, and the lookup is characterised for the table
      [create_image_db] declares;
    - [ntpath] is the CPython 3.10 module.  Later versions split the
      drive of a path that begins with two separators differently; the
      properties that spell out what the split gives are stated for
      paths that do not begin so. *)

From Stdlib Require Import ZArith Ascii String List Lia DecimalString.
From stdpp Require Import base option gmap strings list.

Import ListNotations.
Local Open Scope string_scope.
Local Open Scope Z_scope.

(** ** Python strings *)

Module PyStr.

Definition nl : string := String (ascii_of_nat 10) EmptyString.

(** [str(n)] for an integer. *)
Definition str_of_Z (n : Z) : string := NilZero.string_of_int (Z.to_int n).

(** [s.zfill(width)] for the digit string of a non-negative number. *)
Fixpoint zeros (n : nat) : string :=
  match n with O => "" | S n' => String "0" (zeros n') end.

Definition zfill (width : nat) (s : string) : string :=
  zeros (width - String.length s) ++ s.

(** [sep.join(parts)]. *)
Fixpoint join (sep : string) (parts : list string) : string :=
  match parts with
  | [] => ""
  | [p] => p
  | p :: ps => p ++ sep ++ join sep ps
  end.

(** [s.split(sep)] for a one-character separator: the pieces between
    the occurrences of [sep], always at least one piece. *)
Fixpoint split (sep : ascii) (s : string) : list string :=
  match s with
  | EmptyString => [""]
  | String c s' =>
      if Ascii.eqb c sep then "" :: split sep s'
      else match split sep s' with
           | p :: ps => String c p :: ps
           | [] => [String c ""]
           end
  end.

(** [l[-1]]: the last element, [IndexError] ([None]) on the empty list. *)
Definition index_last {A} (l : list A) : option A := last l.

(** [c in s] for a character. *)
Fixpoint contains (c : ascii) (s : string) : bool :=
  match s with
  | EmptyString => false
  | String a s' => Ascii.eqb a c || contains c s'
  end.

(** [s[-1]] as an option. *)
Fixpoint last_char (s : string) : option ascii :=
  match s with
  | EmptyString => None
  | String c EmptyString => Some c
  | String _ s' => last_char s'
  end.

(** [s[:n]] and [s[n:]]. *)
Fixpoint take (n : nat) (s : string) : string :=
  match n, s with
  | S n', String c s' => String c (take n' s')
  | _, _ => ""
  end.

Fixpoint drop (n : nat) (s : string) : string :=
  match n, s with
  | S n', String _ s' => drop n' s'
  | _, _ => s
  end.

(** [s.find(c, start)] for a character: index of the first occurrence at
    or after [start]. *)
Fixpoint find_from (c : ascii) (start : nat) (s : string) : option nat :=
  match s with
  | EmptyString => None
  | String a s' =>
      match start with
      | S k => S <$> find_from c k s'
      | O => if Ascii.eqb a c then Some O else S <$> find_from c O s'
      end
  end.

(** [s.replace(a, b)] for characters. *)
Fixpoint replace_char (a b : ascii) (s : string) : string :=
  match s with
  | EmptyString => ""
  | String c s' => String (if Ascii.eqb c a then b else c) (replace_char a b s')
  end.

(** [s.lower()] on ASCII letters. *)
Definition lower_char (c : ascii) : ascii :=
  let n := nat_of_ascii c in
  if ((65 <=? n) && (n <=? 90))%nat then ascii_of_nat (n + 32) else c.

Fixpoint lower (s : string) : string :=
  match s with
  | EmptyString => ""
  | String c s' => String (lower_char c) (lower s')
  end.

(** [s.endswith(t)]. *)
Definition endswith (s t : string) : bool :=
  String.eqb (drop (String.length s - String.length t) s) t.

End PyStr.

(** ** hashlib.sha256

    SHA-256 as in FIPS 180-4, on 32-bit words kept in [Z] with the
    wrap-around written out. *)

Module Sha256.

Definition w32 (x : Z) : Z := x mod 2 ^ 32.
Definition add32 (x y : Z) : Z := w32 (x + y).
Definition rotr (n x : Z) : Z :=
  Z.lor (Z.shiftr x n) (w32 (Z.shiftl x (32 - n))).
Definition not32 (x : Z) : Z := 2 ^ 32 - 1 - x.

Definition Ch (x y z : Z) : Z := Z.lxor (Z.land x y) (Z.land (not32 x) z).
Definition Maj (x y z : Z) : Z :=
  Z.lxor (Z.lxor (Z.land x y) (Z.land x z)) (Z.land y z).
Definition Sigma0 (x : Z) : Z := Z.lxor (Z.lxor (rotr 2 x) (rotr 13 x)) (rotr 22 x).
Definition Sigma1 (x : Z) : Z := Z.lxor (Z.lxor (rotr 6 x) (rotr 11 x)) (rotr 25 x).
Definition sigma0 (x : Z) : Z := Z.lxor (Z.lxor (rotr 7 x) (rotr 18 x)) (Z.shiftr x 3).
Definition sigma1 (x : Z) : Z := Z.lxor (Z.lxor (rotr 17 x) (rotr 19 x)) (Z.shiftr x 10).

(** The round constants are the first 32 bits of the fractional parts
    of the cube roots of the first 64 primes; the initial hash value takes
    the square roots of the first 8. *)
Definition primes : list Z :=
  [ 2; 3; 5; 7; 11; 13; 17; 19; 23; 29; 31; 37; 41; 43; 47; 53;
    59; 61; 67; 71; 73; 79; 83; 89; 97; 101; 103; 107; 109; 113; 127; 131;
    137; 139; 149; 151; 157; 163; 167; 173; 179; 181; 191; 193; 197; 199; 211; 223;
    227; 229; 233; 239; 241; 251; 257; 263; 269; 271; 277; 281; 283; 293; 307; 311 ].

(** The integer cube root, one bit at a time from bit [n - 1] down. *)
Fixpoint cube_root_bits (n : nat) (x r : Z) : Z :=
  match n with
  | O => r
  | S n' =>
      let r' := r + 2 ^ Z.of_nat n' in
      cube_root_bits n' x (if r' * r' * r' <=? x then r' else r)
  end.

Definition K : list Z :=
  Eval vm_compute in map (fun p => w32 (cube_root_bits 36 (p * 2 ^ 96) 0)) primes.

Definition H0 : list Z :=
  Eval vm_compute in map (fun p => w32 (Z.sqrt (p * 2 ^ 64))) (firstn 8 primes).

(** Padding: a 1 bit, zeros up to 56 mod 64 bytes, then the bit length
    as a 64-bit big-endian number. *)
Fixpoint be_bytes (n : nat) (x : Z) : list Z :=
  match n with
  | O => []
  | S n' => (x / 256 ^ Z.of_nat n') mod 256 :: be_bytes n' x
  end.

Definition pad (msg : list Z) : list Z :=
  let len := Z.of_nat (length msg) in
  let k := Z.to_nat ((55 - len) mod 64) in
  msg ++ [0x80] ++ repeat 0 k ++ be_bytes 8 (8 * len).

Fixpoint be_word (bs : list Z) (acc : Z) : Z :=
  match bs with
  | [] => acc
  | b :: bs' => be_word bs' (acc * 256 + b)
  end.

(** The first 16 words of the schedule, from one 64-byte block. *)
Fixpoint words (n : nat) (bs : list Z) : list Z :=
  match n with
  | O => []
  | S n' => be_word (firstn 4 bs) 0 :: words n' (skipn 4 bs)
  end.

(** The schedule is kept newest first: [w] holds W(t-1), W(t-2), ... *)
Fixpoint extend (n : nat) (w : list Z) : list Z :=
  match n with
  | O => w
  | S n' =>
      let wt := add32 (add32 (sigma1 (nth 1 w 0)) (nth 6 w 0))
                      (add32 (sigma0 (nth 14 w 0)) (nth 15 w 0)) in
      extend n' (wt :: w)
  end.

Definition schedule (block : list Z) : list Z :=
  rev (extend 48 (rev (words 16 block))).

Record regs := Regs { ra : Z; rb : Z; rc : Z; rd : Z; re : Z; rf : Z; rg : Z; rh : Z }.

Definition round (r : regs) (kw : Z * Z) : regs :=
  let t1 := add32 (add32 (add32 (rh r) (Sigma1 (re r))) (Ch (re r) (rf r) (rg r)))
                  (add32 (fst kw) (snd kw)) in
  let t2 := add32 (Sigma0 (ra r)) (Maj (ra r) (rb r) (rc r)) in
  Regs (add32 t1 t2) (ra r) (rb r) (rc r) (add32 (rd r) t1) (re r) (rf r) (rg r).

Definition regs_of (h : list Z) : regs :=
  Regs (nth 0 h 0) (nth 1 h 0) (nth 2 h 0) (nth 3 h 0)
       (nth 4 h 0) (nth 5 h 0) (nth 6 h 0) (nth 7 h 0).

Definition list_of (r : regs) : list Z :=
  [ra r; rb r; rc r; rd r; re r; rf r; rg r; rh r].

Definition compress (h : list Z) (block : list Z) : list Z :=
  let r := fold_left round (combine K (schedule block)) (regs_of h) in
  map (fun p => add32 (fst p) (snd p)) (combine h (list_of r)).

Fixpoint blocks (n : nat) (h : list Z) (bs : list Z) : list Z :=
  match n with
  | O => h
  | S n' => blocks n' (compress h (firstn 64 bs)) (skipn 64 bs)
  end.

Definition digest (msg : list Z) : list Z :=
  let p := pad msg in
  flat_map (be_bytes 4) (blocks (length p / 64) H0 p).

Definition hex_digit (d : Z) : ascii :=
  ascii_of_nat (Z.to_nat (if d <? 10 then 48 + d else 87 + d)).

Fixpoint hex (bs : list Z) : string :=
  match bs with
  | [] => ""
  | b :: bs' => String (hex_digit (b / 16)) (String (hex_digit (b mod 16)) (hex bs'))
  end.

End Sha256.

(** Bytes objects are lists of bytes. *)
Definition bytes := list Byte.byte.

Definition bytes_of_string (s : string) : bytes := list_byte_of_string s.

(** [sha256(b).hexdigest()] *)
Definition sha256_hexdigest (b : bytes) : string :=
  Sha256.hex (Sha256.digest (map (fun x => Z.of_N (Byte.to_N x)) b)).

(** [len(b)] *)
Definition len (b : bytes) : Z := Z.of_nat (length b).


(** ** os.path on Windows: ntpath.join

    [ntpath.splitdrive] and [ntpath.join] for two [str] arguments, as in
    the CPython 3.10 library the script was written against.  From
    CPython 3.11 on, [splitdrive] takes the whole of [\\server] (a path
    that begins with two separators and names no share) as the drive,
    where 3.10 finds no drive; the versions agree on every path that does
    not begin with two separators. *)

Module NtPath.
Import PyStr.

Definition sep : ascii := "\"%char.
Definition altsep : ascii := "/"%char.
Definition colon : ascii := ":"%char.

Definition is_sep (c : ascii) : bool := Ascii.eqb c sep || Ascii.eqb c altsep.

Definition splitdrive (p : string) : string * string :=
  if (2 <=? String.length p)%nat then
    let normp := replace_char altsep sep p in
    if String.eqb (take 2 normp) (String sep (String sep ""))
       && negb (String.eqb (take 1 (drop 2 normp)) (String sep "")) then
      match find_from sep 2 normp with
      | None => ("", p)
      | Some index =>
          match find_from sep (index + 1) normp with
          | Some index2 =>
              if (index2 =? index + 1)%nat then ("", p)
              else (take index2 p, drop index2 p)
          | None => (p, "")
          end
      end
    else if String.eqb (take 1 (drop 1 normp)) (String colon "") then
      (take 2 p, drop 2 p)
    else ("", p)
  else ("", p).

Definition starts_with_sep (s : string) : bool :=
  match s with String c _ => is_sep c | EmptyString => false end.

Definition ends_with_sep (s : string) : bool :=
  match last_char s with Some c => is_sep c | None => false end.

Definition nonempty (s : string) : bool :=
  match s with EmptyString => false | _ => true end.

(** The body of the loop over the later components. *)
Definition join_step (acc : string * string) (p : string) : string * string :=
  let '(result_drive, result_path) := acc in
  let '(p_drive, p_path) := splitdrive p in
  let relative (result_drive : string) :=
    let result_path :=
      if nonempty result_path && negb (ends_with_sep result_path)
      then result_path ++ String sep "" else result_path in
    (result_drive, result_path ++ p_path) in
  if starts_with_sep p_path then
    (if nonempty p_drive || negb (nonempty result_drive) then p_drive else result_drive,
     p_path)
  else if nonempty p_drive && negb (String.eqb p_drive result_drive) then
    if negb (String.eqb (lower p_drive) (lower result_drive)) then (p_drive, p_path)
    else relative p_drive
  else relative result_drive.

Definition join_finish (acc : string * string) : string :=
  let '(result_drive, result_path) := acc in
  if nonempty result_path && negb (starts_with_sep result_path)
     && nonempty result_drive
     && negb (match last_char result_drive with
              | Some c => Ascii.eqb c colon | None => false end)
  then result_drive ++ String sep "" ++ result_path
  else result_drive ++ result_path.

(** [path.join(a, b)] *)
Definition join (path p : string) : string :=
  join_finish (join_step (splitdrive path) p).

End NtPath.

(** ** datetime.strptime(s, '%Y-%m-%d')

    CPython turns the format into the regular expression
    [(?P<Y>\d\d\d\d)-(?P<m>1[0-2]|0[1-9]|[1-9])-(?P<d>3[01]|[12]\d|0[1-9]|[1-9]| [1-9])],
    matches it at the start of the string (alternatives tried in order,
    with backtracking), rejects a match that leaves text unconverted, and
    builds a date from the three numbers, which rejects year 0 and days
    past the end of the month.  Each failure is a [ValueError]. *)

Module Strptime.

Definition digit (c : ascii) : option Z :=
  let n := nat_of_ascii c in
  if ((48 <=? n) && (n <=? 57))%nat then Some (Z.of_nat n - 48) else None.

Definition in_range (lo hi : Z) (c : ascii) : option Z :=
  d ← digit c; if (lo <=? d) && (d <=? hi) then Some d else None.

(** A piece of the expression maps the text to the ways it can match a
    prefix of it, best first: the value read and the text left. *)
Definition matcher := string -> list (Z * string).

Definition two (first second : ascii -> option Z) : matcher := fun s =>
  match s with
  | String a (String b rest) =>
      match first a, second b with
      | Some x, Some y => [(10 * x + y, rest)]
      | _, _ => []
      end
  | _ => []
  end.

Definition one (first : ascii -> option Z) : matcher := fun s =>
  match s with
  | String a rest => match first a with Some x => [(x, rest)] | None => [] end
  | _ => []
  end.

Definition space_then (first : ascii -> option Z) : matcher := fun s =>
  match s with
  | String " " rest => one first rest
  | _ => []
  end.

Definition alternatives (ms : list matcher) : matcher := fun s =>
  flat_map (fun m => m s) ms.

(** [\d\d\d\d] *)
Definition year : matcher := fun s =>
  '(hi, s1) ← two digit digit s; '(lo, s2) ← two digit digit s1; [(100 * hi + lo, s2)].

(** [1[0-2]|0[1-9]|[1-9]] *)
Definition month : matcher :=
  alternatives [ two (in_range 1 1) (in_range 0 2);
                 two (in_range 0 0) (in_range 1 9);
                 one (in_range 1 9) ].

(** [3[01]|[12]\d|0[1-9]|[1-9]| [1-9]] *)
Definition day : matcher :=
  alternatives [ two (in_range 3 3) (in_range 0 1);
                 two (in_range 1 2) digit;
                 two (in_range 0 0) (in_range 1 9);
                 one (in_range 1 9);
                 space_then (in_range 1 9) ].

Definition hyphen (s : string) : list string :=
  match s with String "-" rest => [rest] | _ => [] end.

(** [format_regex.match(data_string)]: the first way the whole
    expression matches, with the text after the match. *)
Definition regex_match (s : string) : option (Z * Z * Z * string) :=
  head ('(y, s1) ← year s; s2 ← hyphen s1;
        '(m, s3) ← month s2; s4 ← hyphen s3;
        '(d, s5) ← day s4; [(y, m, d, s5)]).

Definition is_leap (y : Z) : bool :=
  (y mod 4 =? 0) && (negb (y mod 100 =? 0) || (y mod 400 =? 0)).

Definition days_in_month (y m : Z) : Z :=
  if m =? 2 then (if is_leap y then 29 else 28)
  else if (m =? 4) || (m =? 6) || (m =? 9) || (m =? 11) then 30
  else 31.

(** [datetime.date(y, m, d)] raises [ValueError] outside these bounds. *)
Definition valid_date (y m d : Z) : bool :=
  (1 <=? y) && (y <=? 9999) && (1 <=? m) && (m <=? 12)
  && (1 <=? d) && (d <=? days_in_month y m).

(** [Some (y, m, d)] when the call returns, [None] for [ValueError]. *)
Definition strptime (s : string) : option (Z * Z * Z) :=
  match regex_match s with
  | None => None
  | Some (y, m, d, rest) =>
      match rest with
      | EmptyString => if valid_date y m d then Some (y, m, d) else None
      | _ => None
      end
  end.

End Strptime.

(** [date(y, m, d).isoformat()] *)
Definition isoformat (d : Z * Z * Z) : string :=
  let '(y, m, dd) := d in
  PyStr.zfill 4 (PyStr.str_of_Z y) ++ "-" ++ PyStr.zfill 2 (PyStr.str_of_Z m)
  ++ "-" ++ PyStr.zfill 2 (PyStr.str_of_Z dd).

(** ** sqlite3: the SQL the script uses

    A tokenizer, a parser and an executor for the three statement forms
    the script hands to [cursor.execute]: [CREATE TABLE [IF NOT EXISTS]],
    [INSERT INTO t (cols) VALUES (params)] and
    [SELECT COUNT(col) FROM t WHERE col = param].  Keywords and names are
    case-insensitive; a statement may end in one semicolon. *)

Module Sql.

Inductive value := Null | Int (n : Z) | Text (s : string).

Inductive token :=
| TWord (w : string)      (* keyword or name, lower-cased *)
| TParam (name : string)  (* :name *)
| TQMark | TLParen | TRParen | TComma | TSemi | TEq | TStar
| TBad (c : ascii).

#[global] Instance value_eq_dec : EqDecision value.
Proof. solve_decision. Defined.
#[global] Instance token_eq_dec : EqDecision token.
Proof. solve_decision. Defined.

Definition is_ident_char (c : ascii) : bool :=
  let n := nat_of_ascii c in
  ((48 <=? n) && (n <=? 57) || (65 <=? n) && (n <=? 90)
   || (97 <=? n) && (n <=? 122) || (n =? 95))%nat.

Definition is_space (c : ascii) : bool :=
  let n := nat_of_ascii c in ((n =? 32) || (9 <=? n) && (n <=? 13))%nat.

Definition punct (c : ascii) : token :=
  if Ascii.eqb c "(" then TLParen else if Ascii.eqb c ")" then TRParen
  else if Ascii.eqb c "," then TComma else if Ascii.eqb c ";" then TSemi
  else if Ascii.eqb c "=" then TEq else if Ascii.eqb c "*" then TStar
  else if Ascii.eqb c "?" then TQMark else TBad c.

Inductive lexstate := Idle | InWord (rev_chars : list ascii) | InParam (rev_chars : list ascii).

Definition flush (st : lexstate) : list token :=
  match st with
  | Idle => []
  | InWord cs => [TWord (PyStr.lower (string_of_list_ascii (rev cs)))]
  | InParam cs => [TParam (string_of_list_ascii (rev cs))]
  end.

Definition push (c : ascii) (st : lexstate) : lexstate :=
  match st with
  | Idle => InWord [c]
  | InWord cs => InWord (c :: cs)
  | InParam cs => InParam (c :: cs)
  end.

Fixpoint lex (st : lexstate) (s : string) : list token :=
  match s with
  | EmptyString => flush st
  | String c s' =>
      if is_ident_char c then lex (push c st) s'
      else flush st ++
           (if is_space c then lex Idle s'
            else if Ascii.eqb c ":" then lex (InParam []) s'
            else punct c :: lex Idle s')
  end.

Definition tokenize (s : string) : list token := lex Idle s.

(** Statements *)

Inductive expr := EQMark | ENamed (name : string).

Record column := Column
  { col_name : string; col_type : string; col_pk : bool; col_notnull : bool }.

Inductive stmt :=
| CreateTable (if_not_exists : bool) (name : string) (cols : list column)
| Insert (table : string) (cols : list string) (vals : list expr)
| SelectCount (col table wcol : string) (rhs : expr).

Definition word (w : string) (ts : list token) : option (list token) :=
  match ts with
  | TWord w' :: ts' => if String.eqb w w' then Some ts' else None
  | _ => None
  end.

Definition name (ts : list token) : option (string * list token) :=
  match ts with TWord w :: ts' => Some (w, ts') | _ => None end.

Definition tok (t : token) (ts : list token) : option (list token) :=
  match ts with
  | t' :: ts' => if bool_decide (t = t') then Some ts' else None
  | [] => None
  end.

(** [name , name , ... )] *)
Fixpoint parse_names (ts : list token) : option (list string * list token) :=
  match ts with
  | TWord n :: TComma :: ts' =>
      '(ns, rest) ← parse_names ts'; Some (n :: ns, rest)
  | TWord n :: TRParen :: ts' => Some ([n], ts')
  | _ => None
  end.

Definition parse_expr (t : token) : option expr :=
  match t with
  | TQMark => Some EQMark
  | TParam n => Some (ENamed n)
  | _ => None
  end.

(** [expr , expr , ... )] *)
Fixpoint parse_exprs (ts : list token) : option (list expr * list token) :=
  match ts with
  | t :: TComma :: ts' =>
      e ← parse_expr t; '(es, rest) ← parse_exprs ts'; Some (e :: es, rest)
  | t :: TRParen :: ts' => e ← parse_expr t; Some ([e], ts')
  | _ => None
  end.

(** [name [type] [PRIMARY KEY] [NOT NULL] , ... )]; [cur] is the column
    being read. *)
Fixpoint parse_columns (cur : option column) (ts : list token)
  : option (list column * list token) :=
  match cur, ts with
  | None, TWord n :: ts' => parse_columns (Some (Column n "" false false)) ts'
  | Some c, TWord w :: ts' =>
      if String.eqb w "primary" then
        match ts' with
        | TWord k :: ts'' =>
            if String.eqb k "key"
            then parse_columns (Some (Column (col_name c) (col_type c) true (col_notnull c))) ts''
            else None
        | _ => None
        end
      else if String.eqb w "not" then
        match ts' with
        | TWord k :: ts'' =>
            if String.eqb k "null"
            then parse_columns (Some (Column (col_name c) (col_type c) (col_pk c) true)) ts''
            else None
        | _ => None
        end
      else if String.eqb (col_type c) "" && negb (col_pk c) && negb (col_notnull c)
      then parse_columns (Some (Column (col_name c) w false false)) ts'
      else None
  | Some c, TComma :: ts' =>
      '(cs, rest) ← parse_columns None ts'; Some (c :: cs, rest)
  | Some c, TRParen :: ts' => Some ([c], ts')
  | _, _ => None
  end.

(** Nothing may follow a statement but one semicolon. *)
Definition at_end (ts : list token) : bool :=
  match ts with [] | [TSemi] => true | _ => false end.

Definition finish (st : stmt) (ts : list token) : option stmt :=
  if at_end ts then Some st else None.

(** The optional [IF NOT EXISTS]. *)
Definition if_not_exists_opt (ts : list token) : bool * list token :=
  match (ts ← word "if" ts; ts ← word "not" ts; word "exists" ts) : option (list token) with
  | Some ts' => (true, ts')
  | None => (false, ts)
  end.

Definition parse_create (ts : list token) : option stmt :=
  ts ← word "table" ts;
  let ine := fst (if_not_exists_opt ts) in
  '(n, ts) ← name (snd (if_not_exists_opt ts));
  ts ← tok TLParen ts;
  '(cols, ts) ← parse_columns None ts;
  finish (CreateTable ine n cols) ts.

Definition parse_insert (ts : list token) : option stmt :=
  ts ← word "into" ts;
  '(n, ts) ← name ts;
  ts ← tok TLParen ts;
  '(cols, ts) ← parse_names ts;
  ts ← word "values" ts;
  ts ← tok TLParen ts;
  '(vals, ts) ← parse_exprs ts;
  finish (Insert n cols vals) ts.

Definition parse_select (ts : list token) : option stmt :=
  ts ← word "count" ts;
  ts ← tok TLParen ts;
  '(c, ts) ← name ts;
  ts ← tok TRParen ts;
  ts ← word "from" ts;
  '(n, ts) ← name ts;
  ts ← word "where" ts;
  '(wc, ts) ← name ts;
  ts ← tok TEq ts;
  match ts with
  | t :: ts => e ← parse_expr t; finish (SelectCount c n wc e) ts
  | [] => None
  end.

(** [None] is "syntax error". *)
Definition parse (query : string) : option stmt :=
  match tokenize query with
  | TWord w :: ts =>
      if String.eqb w "create" then parse_create ts
      else if String.eqb w "insert" then parse_insert ts
      else if String.eqb w "select" then parse_select ts
      else None
  | _ => None
  end.

(** Closing parentheses never outnumber the opening ones read so far,
    and all are closed at the end, in any statement SQLite accepts. *)
Fixpoint balanced_from (depth : nat) (ts : list token) : bool :=
  match ts with
  | [] => (depth =? 0)%nat
  | TLParen :: ts' => balanced_from (S depth) ts'
  | TRParen :: ts' =>
      match depth with O => false | S d => balanced_from d ts' end
  | _ :: ts' => balanced_from depth ts'
  end.

Definition balanced (query : string) : bool := balanced_from 0 (tokenize query).

(** Tables and the executor *)

Record table := Table { tbl_columns : list column; tbl_rows : list (list value) }.

Inductive error :=
| OperationalError (msg : string)
| ProgrammingError (msg : string)
| IntegrityError (msg : string)
| DatabaseError (msg : string).

Inductive params := Positional (vs : list value) | Named (kvs : list (string * value)).

Definition assoc {A} (k : string) (kvs : list (string * A)) : option A :=
  snd <$> find (fun kv => String.eqb (fst kv) k) kvs.

(** Binding the placeholders of a statement to the supplied values: the
    question marks take the positional values in order, all of them. *)
Fixpoint bind_exprs (es : list expr) (ps : params) : error + list value :=
  match es with
  | [] =>
      match ps with
      | Positional (_ :: _) => inl (ProgrammingError "Incorrect number of bindings supplied")
      | _ => inr []
      end
  | EQMark :: es' =>
      match ps with
      | Positional (v :: vs) =>
          match bind_exprs es' (Positional vs) with
          | inr r => inr (v :: r)
          | inl e => inl e
          end
      | _ => inl (ProgrammingError "Incorrect number of bindings supplied")
      end
  | ENamed n :: es' =>
      match ps with
      | Named kvs =>
          match assoc n kvs, bind_exprs es' ps with
          | Some v, inr r => inr (v :: r)
          | None, _ => inl (ProgrammingError "You did not supply a value for binding")
          | _, inl e => inl e
          end
      | Positional _ => inl (ProgrammingError "Binding is a named parameter")
      end
  end.

Fixpoint column_index (n : string) (cols : list column) : option nat :=
  match cols with
  | [] => None
  | c :: cs => if String.eqb (col_name c) n then Some O else S <$> column_index n cs
  end.

(** [INTEGER PRIMARY KEY] makes the column the row id. *)
Definition is_rowid (c : column) : bool :=
  String.eqb (col_type c) "integer" && col_pk c.

Definition cell (row : list value) (i : nat) : value := default Null (row !! i).

Definition int_of (v : value) : Z := match v with Int n => n | _ => 0 end.

(** The row id given to a new row: one more than the largest in use. *)
Definition next_rowid (i : nat) (rows : list (list value)) : Z :=
  1 + fold_right Z.max 0 (map (fun r => int_of (cell r i)) rows).

Fixpoint build_row (t : table) (i : nat) (cols : list column)
         (given : list (string * value)) : error + list value :=
  match cols with
  | [] => inr []
  | c :: cs =>
      let v := default Null (assoc (col_name c) given) in
      let v := if is_rowid c && bool_decide (v = Null)
               then Int (next_rowid i (tbl_rows t)) else v in
      if col_notnull c && bool_decide (v = Null)
      then inl (IntegrityError ("NOT NULL constraint failed: " ++ col_name c))
      else if col_pk c && existsb (fun r => bool_decide (cell r i = v)) (tbl_rows t)
      then inl (IntegrityError ("UNIQUE constraint failed: " ++ col_name c))
      else match build_row t (S i) cs given with
           | inr r => inr (v :: r)
           | inl e => inl e
           end
  end.

(** [a = b] in a WHERE clause: never true of NULL.  The values are
    compared as stored, without the conversion a column's affinity can
    apply to the parameter. *)
Definition sql_eq (a b : value) : bool :=
  negb (bool_decide (a = Null)) && bool_decide (a = b).

(** The result of a statement: the database it leaves when it changed
    it, and the rows it returns. *)
Definition exec (db : gmap string table) (st : stmt) (ps : params)
  : error + (option (gmap string table) * list (list value)) :=
  match st with
  | CreateTable ine n cols =>
      match ps with
      | Positional (_ :: _) => inl (ProgrammingError "Incorrect number of bindings supplied")
      | _ =>
          match db !! n with
          | Some _ =>
              if ine then inr (None, [])
              else inl (OperationalError ("table " ++ n ++ " already exists"))
          | None => inr (Some (<[n := Table cols []]> db), [])
          end
      end
  | Insert n cols es =>
      match db !! n with
      | None => inl (OperationalError ("no such table: " ++ n))
      | Some t =>
          if negb (forallb (fun c => bool_decide (is_Some (column_index c (tbl_columns t)))) cols)
          then inl (OperationalError ("table " ++ n ++ " has no such column"))
          else if negb (length cols =? length es)%nat
          then inl (OperationalError "values for columns")
          else match bind_exprs es ps with
               | inl e => inl e
               | inr vs =>
                   match build_row t 0 (tbl_columns t) (combine cols vs) with
                   | inl e => inl e
                   | inr row =>
                       inr (Some (<[n := Table (tbl_columns t) (tbl_rows t ++ [row])]> db), [])
                   end
               end
      end
  | SelectCount c n wc e =>
      match db !! n with
      | None => inl (OperationalError ("no such table: " ++ n))
      | Some t =>
          match column_index c (tbl_columns t), column_index wc (tbl_columns t) with
          | Some ci, Some wi =>
              match bind_exprs [e] ps with
              | inl err => inl err
              | inr vs =>
                  let v := default Null (head vs) in
                  let hits := List.filter (fun r => negb (bool_decide (cell r ci = Null))
                                               && sql_eq (cell r wi) v) (tbl_rows t) in
                  inr (None, [[Int (Z.of_nat (length hits))]])
              end
          | _, _ => inl (OperationalError "no such column")
          end
      end
  end.

(** Statements that run inside a transaction opened for them. *)
Definition is_dml (st : stmt) : bool :=
  match st with Insert _ _ _ => true | _ => false end.

End Sql.

(** ** The world of a run *)

(** A parsed JSON document, as [response.json()] returns it ([JObj] holds
    the items of the dict). *)
#[local] Set Warnings "-register-all".
Inductive json :=
| JNull | JBool (b : bool) | JNum (n : Z) | JStr (s : string)
| JArr (items : list json) | JObj (items : list (string * json)).

Record request := Request
  { req_url : string; req_params : list (string * string); req_stream : bool }.

Record response := Response
  { status_code : Z;
    content : bytes;
    json_body : option json  (* the body parsed as JSON, where it is JSON *) }.

(** A file holds raw bytes or is an SQLite database; the empty file is the
    empty database. *)
Inductive file := Raw (b : bytes) | Sqlite (db : gmap string Sql.table).

Inductive exn :=
| KeyError (key : string)
| TypeError
| IndexError
| OSError (path : string)
| RequestException
| JSONDecodeError
| SqliteError (e : Sql.error).

(** How a computation ends: it returns, calls [exit(msg)], or raises. *)
Inductive outcome (A : Type) :=
| Ret (a : A)
| Exit (msg : string)
| Raise (e : exn).
Arguments Ret {A} a.
Arguments Exit {A} msg.
Arguments Raise {A} e.

Record world := World
  { fs : gmap string file;        (* regular files, by the path used to open them *)
    stdout : list string;         (* what each [print] wrote *)
    net : list request;           (* the HTTP requests issued, oldest first *)
    desktop : list (Z * Z * string * Z)  (* SystemParametersInfoW calls *) }.

(** What the run is given: the command line, the clock, and the answers of
    the operating system and of the remote servers. *)
Record env := Env
  { argv : list string;
    today : Z * Z * Z;                 (* date.today() *)
    now : string;                      (* datetime.now(), as sqlite3 stores it *)
    isdir : string -> bool;            (* path.isdir *)
    can_write : string -> bool;        (* may this path be created or overwritten *)
    http : request -> exn + response   (* requests.get *) }.

Definition M (A : Type) : Type := world -> outcome A * world.

Definition ret {A} (a : A) : M A := fun w => (Ret a, w).
Definition exit {A} (msg : string) : M A := fun w => (Exit msg, w).
Definition raise {A} (e : exn) : M A := fun w => (Raise e, w).

Definition bind {A B} (m : M A) (k : A -> M B) : M B := fun w =>
  match m w with
  | (Ret a, w') => k a w'
  | (Exit msg, w') => (Exit msg, w')
  | (Raise e, w') => (Raise e, w')
  end.

Notation "'let*' x ':=' m 'in' k" := (bind m (fun x => k))
  (at level 10, x pattern, m at level 100, k at level 200).
Notation "m ';;' k" := (bind m (fun _ => k))
  (at level 100, k at level 200, right associativity).

Definition set_fs (f : gmap string file) (w : world) : world :=
  World f (stdout w) (net w) (desktop w).

(** [print(a, b, ..., end=end_)] *)
Definition print_end (args : list string) (end_ : string) : M unit := fun w =>
  (Ret tt, World (fs w) (stdout w ++ [PyStr.join " " args ++ end_]) (net w) (desktop w)).

Definition print (args : list string) : M unit := print_end args PyStr.nl.

(** [requests.get(url, params=..., stream=...)] *)
Definition get (e : env) (r : request) : M response := fun w =>
  let w' := World (fs w) (stdout w) (net w ++ [r]) (desktop w) in
  match http e r with
  | inr resp => (Ret resp, w')
  | inl err => (Raise err, w')
  end.

(** [response.json()] *)
Definition json_of (r : response) : M json :=
  match json_body r with
  | Some j => ret j
  | None => raise JSONDecodeError
  end.

(** ** The sqlite3 module *)

Record connection := Connection
  { conn_path : string;
    conn_txn : option (gmap string Sql.table)  (* the open transaction's view *) }.

(** [connect(path)]: opens the file, creating it empty when it is
    missing.  [path] is a file name, not one of the names [:memory:] and
    [''] that open a private database. *)
Definition connect (e : env) (path : string) : M connection := fun w =>
  match fs w !! path with
  | Some _ => (Ret (Connection path None), w)
  | None =>
      if can_write e path
      then (Ret (Connection path None), set_fs (<[path := Raw []]> (fs w)) w)
      else (Raise (SqliteError (Sql.OperationalError "unable to open database file")), w)
  end.

(** The database a connection reads.  A file of raw bytes other than the
    empty file is read as "not a database", whatever the bytes. *)
Definition load (c : connection) (w : world) : Sql.error + gmap string Sql.table :=
  match conn_txn c with
  | Some db => inr db
  | None =>
      match fs w !! conn_path c with
      | Some (Sqlite db) => inr db
      | Some (Raw []) | None => inr ∅
      | Some (Raw _) => inl (Sql.DatabaseError "file is not a database")
      end
  end.

(** [cursor.execute(query, params)]: the statement is compiled first; an
    INSERT opens a transaction, anything else outside a transaction is
    written at once.  Yields the connection and the rows for
    [fetchall()]. *)
Definition execute (c : connection) (query : string) (ps : Sql.params)
  : M (connection * list (list Sql.value)) := fun w =>
  match Sql.parse query with
  | None => (Raise (SqliteError (Sql.OperationalError "syntax error")), w)
  | Some st =>
      match load c w with
      | inl err => (Raise (SqliteError err), w)
      | inr db =>
          match Sql.exec db st ps with
          | inl err => (Raise (SqliteError err), w)
          | inr (None, rows) => (Ret (c, rows), w)
          | inr (Some db', rows) =>
              if Sql.is_dml st || bool_decide (is_Some (conn_txn c))
              then (Ret (Connection (conn_path c) (Some db'), rows), w)
              else (Ret (c, rows), set_fs (<[conn_path c := Sqlite db']> (fs w)) w)
          end
      end
  end.

(** [connection.commit()] *)
Definition commit (c : connection) : M connection := fun w =>
  match conn_txn c with
  | Some db => (Ret (Connection (conn_path c) None),
                set_fs (<[conn_path c := Sqlite db]> (fs w)) w)
  | None => (Ret c, w)
  end.

(** [connection.close()]: an open transaction is rolled back. *)
Definition close (c : connection) : M unit := ret tt.

(** ** The script *)

Section Script.

Context (e : env).

(** [argv[i]] *)
Definition argv_at (i : nat) : M string :=
  match argv e !! i with
  | Some a => ret a
  | None => raise IndexError
  end.

Definition get_image_dir_path : M string :=
  if (2 <=? length (argv e))%nat then
    let* dir_path := argv_at 1 in
    if isdir e dir_path then
      print [PyStr.nl ++ "Images directory:"; dir_path] ;;
      ret dir_path
    else
      print ["Error: Non-existent directory"; dir_path] ;;
      exit "Script execution aborted"
  else
    print ["Error: Missing path parameter."] ;;
    exit "Script execution aborted".

Definition get_apod_date : M string :=
  let* apod_date :=
    if (3 <=? length (argv e))%nat then
      (* Date parameter has been provided, so get it *)
      let* apod_date := argv_at 2 in
      (* Validate the date parameter format *)
      match Strptime.strptime apod_date with
      | Some _ => ret apod_date
      | None =>
          print ["Error: Incorrect date format; Should be YYYY-MM-DD"] ;;
          exit "Script execution aborted"
      end
    else
      (* No date parameter has been provided, so use today's date *)
      ret (isoformat (today e)) in
  print ["APOD date:"; apod_date] ;;
  ret apod_date.

Definition get_image_path (image_url dir_path : string) : M string :=
  print_end ["Determining image local path..."] " " ;;
  (* split image URL to get the section after the last / to use as image name *)
  let* img_name :=
    match PyStr.index_last (PyStr.split "/" image_url) with
    | Some n => ret n
    | None => raise IndexError
    end in
  (* creates a valid path to store an image file in the directory selected *)
  let image_path := NtPath.join dir_path img_name in
  print ["done!"] ;;
  ret image_path.

Definition APOD_URL : string := "https://api.nasa.gov/planetary/apod".
Definition APOD_KEY : string := "lMDGG0bANZOe9caY59RJmVoaviTTzzdTDRihVaw5".

Definition get_apod_info (date : string) : M json :=
  (* dictionary with parameters to send to APOD *)
  let parameters := [("api_key", APOD_KEY); ("date", date)] in
  (* make request to APOD *)
  let* api_response := get e (Request APOD_URL parameters false) in
  (* verify the connection was successful *)
  if status_code api_response =? 200 then
    print ["Request to APOD successful!"] ;;
    json_of api_response
  else if status_code api_response =? 404 then
    print ["Unable to establish connection: " ++ PyStr.str_of_Z (status_code api_response)
           ++ PyStr.nl ++ "Make sure to input an existing past date."] ;;
    exit "Script execution aborted"
  else
    print ["Unable to establish connection: " ++ PyStr.str_of_Z (status_code api_response)] ;;
    exit "Script execution aborted".

Definition print_apod_info (image_url image_path : string) (image_size : Z)
           (image_sha256 : string) : M unit :=
  print [PyStr.nl ++ "---------- APOD Image Information ----------"] ;;
  print ["URL: " ++ image_url] ;;
  print ["Local path: " ++ image_path] ;;
  print ["Size: " ++ PyStr.str_of_Z image_size ++ " bytes"] ;;
  print ["SHA-256 digest: " ++ image_sha256] ;;
  print ["--------------------------------------------" ++ PyStr.nl].

Definition download_apod_image (image_url : string) : M response :=
  (* get a response from the url directing to APOD's image *)
  let* response := get e (Request image_url [] true) in
  (* make sure the response was successful *)
  if status_code response =? 200 then
    print ["Image sucessfully downloaded from"; image_url] ;;
    ret response
  else
    print ["Error: Unable to retrieve image from URL."] ;;
    exit "Script execution aborted".

(** [open(path, 'wb')], [write(data)], [close()] *)
Definition write_binary_file (path : string) (data : bytes) : M unit := fun w =>
  if can_write e path
  then (Ret tt, set_fs (<[path := Raw data]> (fs w)) w)
  else (Raise (OSError path), w).

Definition save_image_file (image_msg : response) (image_path : string) : M unit :=
  print_end ["Saving image to local folder..."] " " ;;
  write_binary_file image_path (content image_msg) ;;
  print ["done!"].

Definition CREATE_QUERY : string :=
  "CREATE TABLE IF NOT EXISTS images (
        id integer PRIMARY KEY NOT NULL,
        full_path text NOT NULL,
        file_size int NOT NULL,
        hash_value text NOT NULL,
        date_downloaded datetime NOT NULL
        );".

Definition create_image_db (db_path : string) : M unit :=
  print_end ["Validating existance of database..."] " " ;;
  (* establish connection with the target database or creates it if it does not exist *)
  let* db_connection := connect e db_path in
  (* execute query using the cursor object *)
  let* (db_connection, _) := execute db_connection CREATE_QUERY (Sql.Positional []) in
  (* save changes and close connection *)
  let* db_connection := commit db_connection in
  close db_connection ;;
  print ["done!"].

Definition INSERT_QUERY : string :=
  "INSERT INTO images (
        full_path,
        file_size,
        hash_value,
        date_downloaded)
        VALUES (?, ?, ?, ?)
        );".

Definition add_image_to_db (db_path image_path : string) (image_size : Z)
           (image_sha256 : string) : M unit :=
  print_end ["Saving data to database..."] " " ;;
  (* establish connection with the target database *)
  let* db_connection := connect e db_path in
  (* tuple to substitute placeholders in query *)
  let placeholder :=
    Sql.Positional [Sql.Text image_path; Sql.Int image_size;
                    Sql.Text image_sha256; Sql.Text (now e)] in
  (* execute query using the cursor object and values for placeholders *)
  let* (db_connection, _) := execute db_connection INSERT_QUERY placeholder in
  (* save changes and close connection *)
  let* db_connection := commit db_connection in
  close db_connection ;;
  print ["done!"].

Definition SELECT_QUERY : string :=
  "SELECT COUNT(id) from images
               WHERE hash_value = :hash;".

Definition image_already_in_db (db_path image_sha256 : string) : M bool :=
  print_end ["Validating existance of APOD image entry in database..."] " " ;;
  (* establish connection with the images database *)
  let* db_connection := connect e db_path in
  (* placeholder to replace the image hash in the query *)
  let placeholder := Sql.Named [("hash", Sql.Text image_sha256)] in
  (* execute query using the cursor object and substituting the placeholder *)
  let* (db_connection, query_result) := execute db_connection SELECT_QUERY placeholder in
  (* close connection *)
  close db_connection ;;
  (* determine if there was a match or not *)
  let* count :=
    match query_result !! 0%nat ≫= (.!! 0%nat) with
    | Some v => ret v
    | None => raise IndexError
    end in
  if bool_decide (count = Sql.Int 0) then
    print ["image not in database!"] ;;
    ret false
  else
    print ["image already in database!"] ;;
    ret true.

Definition set_desktop_background_image (image_path : string) : M unit :=
  print_end ["Setting new desktop background..."] " " ;;
  (* set current desktop background to be the APOD image *)
  (fun w => (Ret tt, World (fs w) (stdout w) (net w) (desktop w ++ [(20, 0, image_path, 0)]))) ;;
  print ["done!"].

(** [apod_info_dict['url']], used as the URL given to [requests.get]:
    a missing key is a [KeyError], a value that is not a dict cannot be
    subscripted by a string, and [requests] rejects a URL that is not a
    string before it sends anything. *)
Definition subscript_url (apod_info_dict : json) : M string :=
  match apod_info_dict with
  | JObj items =>
      match Sql.assoc "url" items with
      | Some (JStr u) => ret u
      | Some _ => raise RequestException
      | None => raise (KeyError "url")
      end
  | _ => raise TypeError
  end.

Definition main : M unit :=
  (* Determine the paths where files are stored *)
  let* image_dir_path := get_image_dir_path in
  let db_path := NtPath.join image_dir_path "apod_images.db" in
  (* Get the APOD date, if specified as a parameter *)
  let* apod_date := get_apod_date in
  (* Create the images database if it does not already exist *)
  create_image_db db_path ;;
  (* Get info for the APOD *)
  let* apod_info_dict := get_apod_info apod_date in
  (* Download today's APOD *)
  let* image_url := subscript_url apod_info_dict in
  let* image_msg := download_apod_image image_url in
  let image_sha256 := sha256_hexdigest (content image_msg) in
  let image_size := len (content image_msg) in
  let* image_path := get_image_path image_url image_dir_path in
  (* Print APOD image information *)
  print_apod_info image_url image_path image_size image_sha256 ;;
  (* Add image to cache if not already present *)
  let* cached := image_already_in_db db_path image_sha256 in
  (if negb cached then
     save_image_file image_msg image_path
     (* add_image_to_db(db_path, image_path, image_size, image_sha256)
        is commented out at this point of the script *)
   else ret tt) ;;
  (* Set the desktop background image to the selected APOD *)
  set_desktop_background_image image_path.

End Script.

(** ** Observations on a run, and the words of the specification *)

(** The catalog: the [images] table of the database file at [db_path],
    when there is one. *)
Definition images_table (w : world) (db_path : string) : option Sql.table :=
  match fs w !! db_path with
  | Some (Sqlite db) => db !! "images"
  | _ => None
  end.

Definition catalog_rows (w : world) (db_path : string) : list (list Sql.value) :=
  match images_table w db_path with
  | Some t => Sql.tbl_rows t
  | None => []
  end.

(** The columns [CREATE_QUERY] gives the table. *)
Definition images_columns : list Sql.column :=
  [ Sql.Column "id" "integer" true true;
    Sql.Column "full_path" "text" false true;
    Sql.Column "file_size" "int" false true;
    Sql.Column "hash_value" "text" false true;
    Sql.Column "date_downloaded" "datetime" false true ].

(** A catalog entry with digest [h]: a row of the table whose [hash_value]
    is [h]. *)
Definition has_digest (t : Sql.table) (h : string) : Prop :=
  ∃ ci wi row,
    Sql.column_index "id" (Sql.tbl_columns t) = Some ci ∧
    Sql.column_index "hash_value" (Sql.tbl_columns t) = Some wi ∧
    row ∈ Sql.tbl_rows t ∧
    Sql.cell row ci ≠ Sql.Null ∧ Sql.cell row wi = Sql.Text h.

(** "[ensureSchema()] creates the table if absent": what the files look
    like once the [images] table has been ensured in the database at
    [p].  A file that is missing is created where the system allows it; a
    file that is not a database is left as it is. *)
Definition empty_images : Sql.table := Sql.Table images_columns [].

Definition ensureSchema (e : env) (p : string) (f : gmap string file) : gmap string file :=
  match f !! p with
  | None => if can_write e p then <[p := Sqlite {[ "images" := empty_images ]}]> f else f
  | Some (Raw []) => <[p := Sqlite {[ "images" := empty_images ]}]> f
  | Some (Raw (_ :: _)) => f
  | Some (Sqlite db) =>
      match db !! "images" with
      | Some _ => f
      | None => <[p := Sqlite (<["images" := empty_images]> db)]> f
      end
  end.

(** Whether ensuring the table goes through. *)
Definition schema_available (e : env) (p : string) (f : gmap string file) : bool :=
  match f !! p with
  | None => can_write e p
  | Some (Raw []) => true
  | Some (Raw (_ :: _)) => false
  | Some (Sqlite _) => true
  end.

(** The rows the SELECT of [image_already_in_db] counts for digest [h],
    with [id] and [hash_value] at positions [ci] and [wi]. *)
Definition counted (ci wi : nat) (h : string) (rows : list (list Sql.value))
  : list (list Sql.value) :=
  List.filter (fun r => negb (bool_decide (Sql.cell r ci = Sql.Null))
                        && Sql.sql_eq (Sql.cell r wi) (Sql.Text h)) rows.

(** The world with more text on standard output and nothing else changed. *)
Definition out (w : world) (lines : list string) : world :=
  World (fs w) (stdout w ++ lines) (net w) (desktop w).

(** Every catalog has in [w'] the rows it had in [w]. *)
Definition same_rows (w w' : world) : Prop :=
  ∀ q, catalog_rows w' q = catalog_rows w q.

(** No catalog has been given a row between [w] and [w']: each has the
    rows it had, unless its file now holds raw bytes. *)
Definition no_row_added (w w' : world) : Prop :=
  ∀ q, catalog_rows w' q = catalog_rows w q ∨ ∃ b, fs w' !! q = Some (Raw b).

(** A computation that keeps the rows, one that adds no row, and one that
    leaves the files alone, however it ends. *)
Definition keeps_rows {A} (m : M A) : Prop := ∀ w, same_rows w (snd (m w)).
Definition adds_no_row {A} (m : M A) : Prop := ∀ w, no_row_added w (snd (m w)).
Definition keeps_files {A} (m : M A) : Prop := ∀ w, fs (snd (m w)) = fs w.

(** The world with one more request on the network log. *)
Definition sent (w : world) (r : request) : world :=
  World (fs w) (stdout w) (net w ++ [r]) (desktop w).

(** "The substring of the URL after its last '/'": the text after a slash
    that no other slash follows. *)
Fixpoint after_last_slash (url : string) : string :=
  match url with
  | EmptyString => ""
  | String c rest =>
      if PyStr.contains "/" rest then after_last_slash rest
      else if Ascii.eqb c "/" then rest else url
  end.

(** "Strict zero-padded YYYY-MM-DD form": four digits, a hyphen, two
    digits, a hyphen, two digits. *)
Definition strict_iso (s : string) : bool :=
  match list_ascii_of_string s with
  | [y1; y2; y3; y4; h1; m1; m2; h2; d1; d2] =>
      forallb (fun c => bool_decide (is_Some (Strptime.digit c))) [y1; y2; y3; y4; m1; m2; d1; d2]
      && Ascii.eqb h1 "-" && Ascii.eqb h2 "-"
  | _ => false
  end.

(** The request [get_apod_info] sends for a date. *)
Definition metadata_request (date : string) : request :=
  Request APOD_URL [("api_key", APOD_KEY); ("date", date)] false.

(** The request [download_apod_image] sends for a URL. *)
Definition image_request (url : string) : request := Request url [] true.

(** The date a run resolves, when it resolves one. *)
Definition resolved_date (e : env) : option string :=
  if (3 <=? length (argv e))%nat then
    d ← argv e !! 2%nat; _ ← Strptime.strptime d; Some d
  else Some (isoformat (today e)).

(** *** Sample runs *)

Module Sample.

Definition dir : string := "C:\apod".
Definition db_path : string := "C:\apod\apod_images.db".
Definition image_url : string := "https://example/img.jpg".
Definition abc : bytes := bytes_of_string "abc".

(** The servers of scenario A: the metadata is
    [{"url": "https://example/img.jpg"}], the image is [b"abc"]. *)
Definition servers (r : request) : exn + response :=
  if String.eqb (req_url r) APOD_URL
  then inr (Response 200 [] (Some (JObj [("url", JStr image_url)])))
  else if String.eqb (req_url r) image_url
  then inr (Response 200 abc None)
  else inl RequestException.

(** A metadata server that knows no record. *)
Definition not_found (r : request) : exn + response :=
  inr (Response 404 [] None).

Definition run_env (args : list string) (srv : request -> exn + response) : env :=
  Env ("apod_desktop.py" :: args) (2022, 4, 17) "2022-04-17 12:00:00"
      (fun p => String.eqb p dir) (fun _ => true) srv.

Definition no_date : env := run_env [dir] servers.
Definition no_record : env := run_env [dir] not_found.
Definition unpadded : env := run_env [dir; "2022-1-5"] servers.
Definition slashes : env := run_env [dir; "2022/13/40"] servers.

(** A machine on which the script has not run yet. *)
Definition fresh : world := World ∅ [] [] [].

(** The same machine once [create_image_db] has run. *)
Definition with_catalog (rows : list (list Sql.value)) : world :=
  World {[ db_path := Sqlite {[ "images" := Sql.Table images_columns rows ]} ]} [] [] [].

Definition abc_row : list Sql.value :=
  [ Sql.Int 1; Sql.Text "C:\apod\img.jpg"; Sql.Int 3;
    Sql.Text "ba7816bf8f01cfea414140de5dae2223b00361a396177a9cb410ff61f20015ad";
    Sql.Text "2022-04-16 09:00:00" ].

(** The INSERT statement without the closing parenthesis after VALUES. *)
Definition INSERT_QUERY_balanced : string :=
  "INSERT INTO images (
        full_path,
        file_size,
        hash_value,
        date_downloaded)
        VALUES (?, ?, ?, ?);".


(** [add_image_to_db] as it would read with that statement. *)
Definition add_image_balanced (e : env) (db_path image_path : string)
           (image_size : Z) (image_sha256 : string) : M unit :=
  print_end ["Saving data to database..."] " " ;;
  let* db_connection := connect e db_path in
  let placeholder :=
    Sql.Positional [Sql.Text image_path; Sql.Int image_size;
                    Sql.Text image_sha256; Sql.Text (now e)] in
  let* (db_connection, _) := execute db_connection INSERT_QUERY_balanced placeholder in
  let* db_connection := commit db_connection in
  close db_connection ;;
  print ["done!"].

Definition abc_digest : string :=
  "ba7816bf8f01cfea414140de5dae2223b00361a396177a9cb410ff61f20015ad".

End Sample.

(** *** What the functions print *)

Definition create_messages : list string :=
  ["Validating existance of database... "; "done!" ++ PyStr.nl].

Definition lookup_messages (found : bool) : list string :=
  [ "Validating existance of APOD image entry in database... ";
    (if found then "image already in database!" else "image not in database!") ++ PyStr.nl ].

Definition directory_messages (dir : string) : list string :=
  [PyStr.nl ++ "Images directory: " ++ dir ++ PyStr.nl].

Definition date_error : string :=
  "Error: Incorrect date format; Should be YYYY-MM-DD" ++ PyStr.nl.

Definition path_messages : list string :=
  ["Determining image local path... "; "done!" ++ PyStr.nl].

Definition info_messages (image_url image_path : string) (image_size : Z)
           (image_sha256 : string) : list string :=
  [ PyStr.nl ++ "---------- APOD Image Information ----------" ++ PyStr.nl;
    "URL: " ++ image_url ++ PyStr.nl;
    "Local path: " ++ image_path ++ PyStr.nl;
    "Size: " ++ PyStr.str_of_Z image_size ++ " bytes" ++ PyStr.nl;
    "SHA-256 digest: " ++ image_sha256 ++ PyStr.nl;
    "--------------------------------------------" ++ PyStr.nl ++ PyStr.nl ].

(** The world once [set_desktop_background_image] has run. *)
Definition wallpaper_set (w : world) (path : string) : world :=
  World (fs w) (stdout w ++ ["Setting new desktop background... "; "done!" ++ PyStr.nl])
        (net w) (desktop w ++ [(20, 0, path, 0)]).

(** [ntpath.join] on sample arguments, with what CPython answers. *)
Definition njoin_tests : list (string * string * string) :=
  [("C:\apod","img.jpg","C:\apod\img.jpg"); ("C:\apod\","img.jpg","C:\apod\img.jpg");
   ("C:/apod","img.jpg","C:/apod\img.jpg"); ("","img.jpg","img.jpg"); ("C:","img.jpg","C:img.jpg");
   ("C:\apod","","C:\apod\"); ("C:\apod","\x","C:\x"); ("C:\apod","D:x","D:x");
   ("C:\apod","c:x","c:\apod\x"); ("\\srv\share","img.jpg","\\srv\share\img.jpg");
   ("apod","a:b","a:b"); ("C:\apod","C:x","C:\apod\x"); ("//srv/share/","x","//srv/share/x");
   ("\\srv","x","\\srv\x")].

(** Running the steps that only thread the world. *)
Ltac run_pure :=
  cbv [bind commit close print print_end ret exit raise out set_fs
       conn_txn conn_path fs stdout net desktop PyStr.join create_messages];
  rewrite <- ?List.app_assoc;
  cbn [app String.append].

(** *** Further observations *)

(** A computation that leaves one component of the world as it was,
    however it ends. *)
Definition keeps {X A} (proj : world -> X) (m : M A) : Prop :=
  ∀ w, proj (snd (m w)) = proj w.

(** A plain file name for [ntpath.join]: not empty, no drive or share in
    front, no separator at its start. *)
Definition plain_name (name : string) : bool :=
  NtPath.nonempty name && negb (NtPath.starts_with_sep name)
  && bool_decide (NtPath.splitdrive name = ("", name)).

(** What [ntpath.join] puts in front of a plain name: the directory, with
    a separator where it does not end in one. *)
Definition join_prefix (dir : string) : string :=
  let result_drive := fst (NtPath.splitdrive dir) in
  let result_path := snd (NtPath.splitdrive dir) in
  let result_path :=
    if NtPath.nonempty result_path && negb (NtPath.ends_with_sep result_path)
    then result_path ++ String NtPath.sep "" else result_path in
  if negb (NtPath.starts_with_sep result_path) && NtPath.nonempty result_drive
     && negb (match PyStr.last_char result_drive with
              | Some c => Ascii.eqb c NtPath.colon | None => false end)
  then result_drive ++ String NtPath.sep "" ++ result_path
  else result_drive ++ result_path.

(** A path that begins with two separators, as the names of network
    shares and devices do. *)
Definition starts_with_two_seps (p : string) : bool :=
  match p with
  | String a (String b _) => NtPath.is_sep a && NtPath.is_sep b
  | _ => false
  end.

(** The names [sqlite3.connect] does not take as the name of a file. *)
Definition private_database_name (p : string) : bool :=
  String.eqb p ":memory:" || String.eqb p "".

(** The calendar dates [datetime.date] can hold. *)
Definition calendar_date (d : Z * Z * Z) : bool :=
  let '(y, m, dd) := d in Strptime.valid_date y m dd.

(** The characters a date argument is made of when [strptime] takes it. *)
Definition date_char (c : ascii) : bool :=
  bool_decide (is_Some (Strptime.digit c)) || Ascii.eqb c "-" || Ascii.eqb c " ".

Fixpoint all_chars (f : ascii -> bool) (s : string) : bool :=
  match s with
  | EmptyString => true
  | String c s' => f c && all_chars f s'
  end.

(** The network log and the desktop calls together: what the steps that
    only read, print and write files leave alone. *)
Definition wires (w : world) : list request * list (Z * Z * string * Z) :=
  (net w, desktop w).

(** A computation that sets the background exactly when it returns: one
    more [SystemParametersInfoW(20, 0, path, 0)] call if it returns, none
    if it exits or raises. *)
Definition sets_background_iff_returns (m : M unit) : Prop :=
  ∀ w,
    match fst (m w) with
    | Ret _ => ∃ path, desktop (snd (m w)) = (desktop w ++ [(20, 0, path, 0)])%list
    | _ => desktop (snd (m w)) = desktop w
    end.

(** The requests of a whole run: none, the metadata request alone, or the
    metadata request and then one image request. *)
Definition request_shape (e : env) (l : list request) : Prop :=
  l = [] ∨
  ∃ date, resolved_date e = Some date ∧
    (l = [metadata_request date] ∨ ∃ url, l = [metadata_request date; image_request url]).

(** Whether [n], written with [width] digits and leading zeros, reads
    back as [n] digit by digit. *)
Fixpoint read_digits (s : string) (acc : Z) : option Z :=
  match s with
  | EmptyString => Some acc
  | String c s' =>
      match Strptime.digit c with
      | Some x => read_digits s' (10 * acc + x)
      | None => None
      end
  end.

Definition padded_text_ok (width : nat) (n : Z) : bool :=
  let s := PyStr.zfill width (PyStr.str_of_Z n) in
  (String.length s =? width)%nat && bool_decide (read_digits s 0 = Some n).

(** *** More sample runs *)

Module Edge.


(** Metadata without a [url]. *)
Definition no_url (r : request) : exn + response :=
  inr (Response 200 [] (Some (JObj [("title", JStr "Orion")]))).

(** Metadata whose image is named like the catalog. *)
Definition catalog_named_url : string := "https://example/apod_images.db".

Definition catalog_named (r : request) : exn + response :=
  if String.eqb (req_url r) APOD_URL
  then inr (Response 200 [] (Some (JObj [("url", JStr catalog_named_url)])))
  else inr (Response 200 Sample.abc None).

Definition elsewhere : env := Sample.run_env ["D:\nowhere"] Sample.servers.
Definition elsewhere_bad_date : env := Sample.run_env ["D:\nowhere"; "2022/13/40"] Sample.servers.
Definition no_arguments : env := Sample.run_env [] Sample.servers.
Definition without_url : env := Sample.run_env [Sample.dir] no_url.
Definition named_like_catalog : env := Sample.run_env [Sample.dir] catalog_named.

(** A metadata server that answers 200 with a page that is not JSON. *)
Definition html_page (r : request) : exn + response :=
  inr (Response 200 (bytes_of_string "<html>maintenance</html>") None).

Definition not_json : env := Sample.run_env [Sample.dir] html_page.

(** A machine on which nothing can be written. *)
Definition read_only : env :=
  Env ["apod_desktop.py"; Sample.dir] (2022, 4, 17) "2022-04-17 12:00:00"
      (fun p => String.eqb p Sample.dir) (fun _ => false) Sample.servers.


End Edge.

(** * Properties *)

(** ** The library models on known values *)

Example njoin_ok : forallb (fun t => String.eqb (NtPath.join (fst (fst t)) (snd (fst t))) (snd t)) njoin_tests = true.
Proof. vm_compute. reflexivity. Qed.
Example strp_ok : map Strptime.strptime ["2022-1-5";"2022-01-05";"2022/13/40";"2022-13-01";"2022-02-30";"0000-01-01";"2022-1- 5";"2022-01-051";" 2022-01-05";"2022-01-05 ";"22-01-05";"2022-00-05";"2022-10-5";"2022-1-31";"2022-131";"+022-01-01";"2022-01-0";"2024-02-29";"2023-02-29";"1900-02-29";"2000-02-29"]
 = [Some (2022,1,5); Some (2022,1,5); None; None; None; None; Some (2022,1,5); None; None; None; None; None; Some (2022,10,5); Some (2022,1,31); None; None; None; Some (2024,2,29); None; None; Some (2000,2,29)].
Proof. vm_compute. reflexivity. Qed.
Example iso_ok : isoformat (2022, 4, 7) = "2022-04-07".
Proof. vm_compute. reflexivity. Qed.

Example sha_constants :
  head Sha256.K = Some 0x428a2f98 /\ last Sha256.K = Some 0xc67178f2 /\
  head Sha256.H0 = Some 0x6a09e667 /\ last Sha256.H0 = Some 0x5be0cd19.
Proof. vm_compute. repeat split; reflexivity. Qed.
Example sha_abc : sha256_hexdigest (bytes_of_string "abc") = "ba7816bf8f01cfea414140de5dae2223b00361a396177a9cb410ff61f20015ad".
Proof. vm_compute. reflexivity. Qed.
Example sha_empty : sha256_hexdigest [] = "e3b0c44298fc1c149afbf4c8996fb92427ae41e4649b934ca495991b7852b855".
Proof. vm_compute. reflexivity. Qed.
Example sha_two_blocks : sha256_hexdigest (bytes_of_string "abcdbcdecdefdefgefghfghighijhijkijkljklmklmnlmnomnopnopq") = "248d6a61d20638b8e5c026930c3e6039a33ce45964ff2167f6ecedd419db06c1".
Proof. vm_compute. reflexivity. Qed.

Example sql_parse_ok : Sql.parse "SELECT COUNT(id) from images WHERE hash_value = :hash;"
  = Some (Sql.SelectCount "id" "images" "hash_value" (Sql.ENamed "hash")).
Proof. vm_compute. reflexivity. Qed.
Example sql_parse_ins : Sql.parse "INSERT INTO images (a, b) VALUES (?, ?);"
  = Some (Sql.Insert "images" ["a";"b"] [Sql.EQMark; Sql.EQMark]).
Proof. vm_compute. reflexivity. Qed.
Example sql_parse_bad : Sql.parse "INSERT INTO images (a, b) VALUES (?, ?) );" = None.
Proof. vm_compute. reflexivity. Qed.
Example sql_parse_cr : Sql.parse "CREATE TABLE IF NOT EXISTS images ( id integer PRIMARY KEY NOT NULL, full_path text NOT NULL);"
  = Some (Sql.CreateTable true "images" [Sql.Column "id" "integer" true true; Sql.Column "full_path" "text" false true]).
Proof. vm_compute. reflexivity. Qed.
Example str_of_Z_ok : map PyStr.str_of_Z [0; 3; 404; -5] = ["0"; "3"; "404"; "-5"].
Proof. vm_compute. reflexivity. Qed.

(** ** Sequencing *)

Lemma bind_ret {A B} (m : M A) (k : A -> M B) w a w' :
  m w = (Ret a, w') -> bind m k w = k a w'.
Proof. intros H. unfold bind. rewrite H. reflexivity. Qed.

Lemma bind_exit {A B} (m : M A) (k : A -> M B) w msg w' :
  m w = (Exit msg, w') -> bind m k w = (Exit msg, w').
Proof. intros H. unfold bind. rewrite H. reflexivity. Qed.

Lemma bind_raise {A B} (m : M A) (k : A -> M B) w ex w' :
  m w = (Raise ex, w') -> bind m k w = (Raise ex, w').
Proof. intros H. unfold bind. rewrite H. reflexivity. Qed.

Lemma print_out args w : print args w = (Ret tt, out w [PyStr.join " " args ++ PyStr.nl]).
Proof. reflexivity. Qed.

Lemma print_end_out args end_ w :
  print_end args end_ w = (Ret tt, out w [PyStr.join " " args ++ end_]).
Proof. reflexivity. Qed.

Lemma out_out w a b : out (out w a) b = out w (a ++ b).
Proof. unfold out. simpl. rewrite <- app_assoc. reflexivity. Qed.

Lemma fs_out w l : fs (out w l) = fs w.
Proof. reflexivity. Qed.

Lemma net_out w l : net (out w l) = net w.
Proof. reflexivity. Qed.

Lemma desktop_out w l : desktop (out w l) = desktop w.
Proof. reflexivity. Qed.

Lemma append_assoc (a b c : string) : ((a ++ b) ++ c)%string = (a ++ b ++ c)%string.
Proof.
  induction a as [|x a IH]; [reflexivity|].
  change (String x ((a ++ b) ++ c) = String x (a ++ b ++ c))%string. f_equal. exact IH.
Qed.

(** ** str.split and the last path segment *)

Lemma split_nonempty sep s : PyStr.split sep s <> [].
Proof.
  destruct s as [|c s]; simpl; [discriminate|].
  destruct (Ascii.eqb c sep); [discriminate|].
  destruct (PyStr.split sep s); discriminate.
Qed.

Lemma split_no_sep sep s : PyStr.contains sep s = false -> PyStr.split sep s = [s].
Proof.
  induction s as [|c s IH]; simpl; [reflexivity|].
  intros H. apply orb_false_iff in H as [Hc Hs].
  rewrite Hc, (IH Hs). reflexivity.
Qed.

(** Splitting distributes over a separator: [(a + sep + b).split(sep)] is
    [a.split(sep) + b.split(sep)]. *)
Lemma split_app sep a b :
  PyStr.split sep (a ++ String sep b) = (PyStr.split sep a ++ PyStr.split sep b)%list.
Proof.
  induction a as [|c a IH]; simpl.
  - rewrite Ascii.eqb_refl. reflexivity.
  - destruct (Ascii.eqb c sep).
    + rewrite IH. reflexivity.
    + rewrite IH. pose proof (split_nonempty sep a) as Hne.
      destruct (PyStr.split sep a); [congruence|reflexivity].
Qed.

Lemma split_last sep pre seg :
  PyStr.contains sep seg = false ->
  PyStr.index_last (PyStr.split sep (pre ++ String sep seg)) = Some seg.
Proof.
  intros H. rewrite split_app, (split_no_sep _ _ H).
  unfold PyStr.index_last. apply last_snoc.
Qed.

Lemma after_last_slash_segment pre seg :
  PyStr.contains "/" seg = false ->
  after_last_slash (pre ++ String "/" seg) = seg.
Proof.
  intros H. induction pre as [|c pre IH]; simpl.
  - rewrite H. reflexivity.
  - assert (Hc : PyStr.contains "/" (pre ++ String "/" seg) = true).
    { clear. induction pre as [|d pre IH]; simpl; [reflexivity|].
      rewrite IH. apply orb_true_r. }
    rewrite Hc. exact IH.
Qed.

Lemma after_last_slash_whole url :
  PyStr.contains "/" url = false -> after_last_slash url = url.
Proof.
  destruct url as [|c url]; simpl; [reflexivity|].
  intros H. apply orb_false_iff in H as [Hc Hs]. rewrite Hs, Hc. reflexivity.
Qed.

Lemma split_two_pieces sep s :
  PyStr.contains sep s = true -> exists p q ps, PyStr.split sep s = p :: q :: ps.
Proof.
  induction s as [|c s IH]; simpl; [discriminate|].
  destruct (Ascii.eqb c sep) eqn:Hc; simpl; intros H.
  - pose proof (split_nonempty sep s).
    destruct (PyStr.split sep s) as [|q ps]; [congruence|]. eauto.
  - destruct (IH H) as (p & q & ps & ->). eauto.
Qed.

(** The script's [split("/")[-1]] is the text after the last slash, for
    every string (the whole string when it has no slash). *)
Lemma split_is_after_last_slash url :
  PyStr.index_last (PyStr.split "/" url) = Some (after_last_slash url).
Proof.
  induction url as [|c url IH]; [reflexivity|].
  cbn [PyStr.split after_last_slash].
  destruct (PyStr.contains "/" url) eqn:Hs.
  - destruct (split_two_pieces _ _ Hs) as (p & q & ps & Hsp).
    rewrite Hsp in *. destruct (Ascii.eqb c "/"); exact IH.
  - rewrite (split_no_sep _ _ Hs). destruct (Ascii.eqb c "/"); reflexivity.
Qed.

(** ** get_image_path *)

Lemma get_image_path_run url dir w :
  get_image_path url dir w = (Ret (NtPath.join dir (after_last_slash url)), out w path_messages).
Proof.
  unfold get_image_path.
  rewrite (bind_ret _ _ _ _ _ (print_end_out _ _ _)).
  rewrite split_is_after_last_slash.
  erewrite bind_ret by reflexivity.
  erewrite bind_ret by apply print_out.
  unfold ret. rewrite out_out. reflexivity.
Qed.

(** C8. For every image URL and target directory, [get_image_path]
    returns [path.join] of the directory and the text of the URL after
    its last slash, and changes nothing but standard output.  That text
    is [seg] when the URL is [pre/seg] with no slash in [seg]; a URL
    without any slash is taken whole. *)
Theorem get_image_path_last_segment :
  (forall url dir w,
     get_image_path url dir w
     = (Ret (NtPath.join dir (after_last_slash url)), out w path_messages)) /\
  (forall pre seg, PyStr.contains "/" seg = false ->
     after_last_slash (pre ++ String "/" seg) = seg) /\
  (forall url, PyStr.contains "/" url = false -> after_last_slash url = url).
Proof.
  split; [exact get_image_path_run|].
  split; [exact after_last_slash_segment|exact after_last_slash_whole].
Qed.

Lemma get_image_path_last_segment_witness :
  get_image_path "https://example/img.jpg" Sample.dir Sample.fresh
  = (Ret "C:\apod\img.jpg", out Sample.fresh path_messages) /\
  after_last_slash ("https://example" ++ String "/" "img.jpg") = "img.jpg".
Proof.
  split.
  - exact (proj1 get_image_path_last_segment "https://example/img.jpg" Sample.dir Sample.fresh).
  - exact (proj1 (proj2 get_image_path_last_segment) "https://example" "img.jpg" eq_refl).
Defined.

(** ** The three SQL statements *)

Lemma parse_CREATE_QUERY :
  Sql.parse CREATE_QUERY = Some (Sql.CreateTable true "images" images_columns).
Proof. vm_compute. reflexivity. Qed.

Lemma parse_SELECT_QUERY :
  Sql.parse SELECT_QUERY = Some (Sql.SelectCount "id" "images" "hash_value" (Sql.ENamed "hash")).
Proof. vm_compute. reflexivity. Qed.

Lemma parse_INSERT_QUERY : Sql.parse INSERT_QUERY = None.
Proof. vm_compute. reflexivity. Qed.

Lemma unbalanced_INSERT_QUERY : Sql.balanced INSERT_QUERY = false.
Proof. vm_compute. reflexivity. Qed.

Lemma parse_INSERT_QUERY_balanced :
  Sql.parse Sample.INSERT_QUERY_balanced
  = Some (Sql.Insert "images" ["full_path"; "file_size"; "hash_value"; "date_downloaded"]
            [Sql.EQMark; Sql.EQMark; Sql.EQMark; Sql.EQMark]).
Proof. vm_compute. reflexivity. Qed.

(** ** create_image_db *)



(** The run of [create_image_db], case by case on the file at [p]. *)
Lemma create_image_db_run e p w :
  create_image_db e p w =
  if schema_available e p (fs w)
  then (Ret tt, out (set_fs (ensureSchema e p (fs w)) w) create_messages)
  else (Raise (SqliteError
                 (match fs w !! p with
                  | None => Sql.OperationalError "unable to open database file"
                  | _ => Sql.DatabaseError "file is not a database"
                  end)),
        out w ["Validating existance of database... "]).
Proof.
  unfold create_image_db, schema_available, ensureSchema.
  rewrite (bind_ret _ _ _ _ _ (print_end_out _ _ _)).
  unfold bind at 1. unfold connect. rewrite fs_out.
  destruct (fs w !! p) as [[b|db]|] eqn:Hp.
  - (* a file of raw bytes *)
    unfold bind at 1. unfold execute. rewrite parse_CREATE_QUERY.
    unfold load. cbn [conn_txn conn_path]. rewrite fs_out, Hp.
    destruct b as [|b0 b]; [|reflexivity].
    cbn [Sql.exec]. rewrite lookup_empty. cbn [Sql.is_dml orb conn_txn].
    rewrite bool_decide_eq_false_2 by (intros [? ?]; discriminate).
    rewrite insert_empty. run_pure. reflexivity.
  - (* a database *)
    unfold bind at 1. unfold execute. rewrite parse_CREATE_QUERY.
    unfold load. cbn [conn_txn conn_path]. rewrite fs_out, Hp.
    cbn [Sql.exec]. destruct (db !! "images") eqn:Ht; [run_pure; reflexivity|].
    cbn [Sql.is_dml orb conn_txn].
    rewrite bool_decide_eq_false_2 by (intros [? ?]; discriminate).
    run_pure. reflexivity.
  - (* no file *)
    destruct (can_write e p); [|reflexivity].
    unfold bind at 1. unfold execute. rewrite parse_CREATE_QUERY.
    unfold load. cbn [conn_txn conn_path set_fs fs]. rewrite lookup_insert_eq.
    cbn [Sql.exec]. rewrite lookup_empty. cbn [Sql.is_dml orb conn_txn].
    rewrite bool_decide_eq_false_2 by (intros [? ?]; discriminate).
    cbn [set_fs fs]. rewrite insert_insert_eq, insert_empty. run_pure. reflexivity.
Qed.

Lemma ensureSchema_available e p f :
  schema_available e p f = true -> schema_available e p (ensureSchema e p f) = true.
Proof.
  unfold schema_available, ensureSchema.
  destruct (f !! p) as [[[|b0 b]|db]|] eqn:Hp; intros H; try discriminate.
  - rewrite lookup_insert_eq. reflexivity.
  - destruct (db !! "images"); [rewrite Hp; reflexivity|].
    rewrite lookup_insert_eq. reflexivity.
  - rewrite H, lookup_insert_eq. reflexivity.
Qed.

Lemma ensureSchema_twice e p f :
  ensureSchema e p (ensureSchema e p f) = ensureSchema e p f.
Proof.
  unfold ensureSchema at 2 3.
  destruct (f !! p) as [[[|b0 b]|db]|] eqn:Hp.
  - unfold ensureSchema. rewrite lookup_insert_eq, lookup_singleton_eq. reflexivity.
  - unfold ensureSchema. rewrite Hp. reflexivity.
  - destruct (db !! "images") eqn:Ht.
    + unfold ensureSchema. rewrite Hp, Ht. reflexivity.
    + unfold ensureSchema. rewrite lookup_insert_eq, lookup_insert_eq. reflexivity.
  - destruct (can_write e p) eqn:Hw.
    + unfold ensureSchema. rewrite lookup_insert_eq, lookup_singleton_eq. reflexivity.
    + unfold ensureSchema. rewrite Hp, Hw. reflexivity.
Qed.

(** Ensuring the table touches no file but the database, and no row. *)
Lemma ensureSchema_other e p f q : q <> p -> ensureSchema e p f !! q = f !! q.
Proof.
  intros Hq. unfold ensureSchema.
  destruct (f !! p) as [[[|b0 b]|db]|]; try reflexivity.
  - apply lookup_insert_ne; congruence.
  - destruct (db !! "images"); [reflexivity|]. apply lookup_insert_ne; congruence.
  - destruct (can_write e p); [|reflexivity]. apply lookup_insert_ne; congruence.
Qed.

Lemma ensureSchema_rows e p w q :
  catalog_rows (set_fs (ensureSchema e p (fs w)) w) q = catalog_rows w q.
Proof.
  unfold catalog_rows, images_table. cbn [set_fs fs].
  destruct (decide (q = p)) as [->|Hq]; [|rewrite ensureSchema_other by exact Hq; reflexivity].
  unfold ensureSchema.
  destruct (fs w !! p) as [[[|b0 b]|db]|] eqn:Hp; rewrite ?Hp; try reflexivity.
  - rewrite lookup_insert_eq, lookup_singleton_eq. reflexivity.
  - destruct (db !! "images") eqn:Ht.
    + rewrite Hp, Ht. reflexivity.
    + rewrite lookup_insert_eq, lookup_insert_eq. reflexivity.
  - destruct (can_write e p); rewrite ?Hp; [|reflexivity].
    rewrite lookup_insert_eq, lookup_singleton_eq. reflexivity.
Qed.

Lemma create_image_db_present e p w db t :
  fs w !! p = Some (Sqlite db) -> db !! "images" = Some t ->
  create_image_db e p w = (Ret tt, out w create_messages).
Proof.
  intros Hp Ht. rewrite create_image_db_run.
  unfold schema_available, ensureSchema. rewrite Hp, Ht.
  destruct w; reflexivity.
Qed.

(** C9. [create_image_db] is idempotent: where the [images] table exists
    it leaves every file, hence every row, as it was; and a second run
    ends as the first did and leaves the files as the first left them. *)
Theorem create_image_db_idempotent (e : env) (w : world) (p : string) :
  (forall db t, fs w !! p = Some (Sqlite db) -> db !! "images" = Some t ->
     create_image_db e p w = (Ret tt, out w create_messages)) /\
  (let once := create_image_db e p w in
   let twice := create_image_db e p (snd once) in
   fst twice = fst once /\ fs (snd twice) = fs (snd once)).
Proof.
  split.
  - intros db t Hp Ht. exact (create_image_db_present e p w db t Hp Ht).
  - cbv zeta. rewrite (create_image_db_run e p w).
    destruct (schema_available e p (fs w)) eqn:Ha; cbn [snd fst].
    + rewrite create_image_db_run. cbn [out set_fs fs].
      rewrite (ensureSchema_available _ _ _ Ha). cbn [snd fst fs out set_fs].
      rewrite ensureSchema_twice. split; reflexivity.
    + rewrite create_image_db_run. rewrite fs_out, Ha. cbn [snd fst].
      rewrite !fs_out. split; reflexivity.
Qed.

Lemma create_image_db_idempotent_witness :
  create_image_db Sample.no_date Sample.db_path (Sample.with_catalog [Sample.abc_row])
  = (Ret tt, out (Sample.with_catalog [Sample.abc_row]) create_messages).
Proof.
  refine (proj1 (create_image_db_idempotent Sample.no_date
                   (Sample.with_catalog [Sample.abc_row]) Sample.db_path) _ _ _ _).
  - apply lookup_singleton_eq.
  - apply lookup_singleton_eq.
Defined.

(** ** add_image_to_db *)

(** C4. Whatever it is given, [add_image_to_db] raises an sqlite3 error
    and leaves the [images] table of every database as it was: the INSERT
    statement closes a parenthesis it never opened, so it does not
    compile, and nothing is committed. *)
Theorem add_image_to_db_always_raises (e : env) (w : world)
        (db_path image_path : string) (image_size : Z) (image_sha256 : string) :
  exists err w',
    add_image_to_db e db_path image_path image_size image_sha256 w
    = (Raise (SqliteError err), w') /\
    (forall p, images_table w' p = images_table w p) /\
    Sql.parse INSERT_QUERY = None /\
    Sql.balanced INSERT_QUERY = false.
Proof.
  unfold add_image_to_db.
  rewrite (bind_ret _ _ _ _ _ (print_end_out _ _ _)).
  unfold bind at 1. unfold connect. rewrite fs_out.
  destruct (fs w !! db_path) as [f|] eqn:Hp.
  - unfold bind at 1. unfold execute. rewrite parse_INSERT_QUERY.
    eexists _, _. split; [reflexivity|]. split; [|split].
    + intros p. reflexivity.
    + reflexivity.
    + apply unbalanced_INSERT_QUERY.
  - destruct (can_write e db_path).
    + unfold bind at 1. unfold execute. rewrite parse_INSERT_QUERY.
      eexists _, _. split; [reflexivity|]. split; [|split].
      * intros p. unfold images_table. cbn [set_fs fs out].
        destruct (decide (p = db_path)) as [->|Hne].
        -- rewrite lookup_insert_eq, Hp. reflexivity.
        -- rewrite lookup_insert_ne by congruence. reflexivity.
      * reflexivity.
      * apply unbalanced_INSERT_QUERY.
    + eexists _, _. split; [reflexivity|]. split; [|split].
      * intros p. reflexivity.
      * reflexivity.
      * apply unbalanced_INSERT_QUERY.
Qed.

(** ** image_already_in_db *)

(** On a database with an [images] table that has the two columns, the
    check answers whether the SELECT counts a row. *)
Lemma image_already_in_db_run e p h w db t ci wi :
  fs w !! p = Some (Sqlite db) ->
  db !! "images" = Some t ->
  Sql.column_index "id" (Sql.tbl_columns t) = Some ci ->
  Sql.column_index "hash_value" (Sql.tbl_columns t) = Some wi ->
  let found := negb (length (counted ci wi h (Sql.tbl_rows t)) =? 0)%nat in
  image_already_in_db e p h w = (Ret found, out w (lookup_messages found)).
Proof.
  intros Hp Ht Hci Hwi found. unfold image_already_in_db.
  rewrite (bind_ret _ _ _ _ _ (print_end_out _ _ _)).
  unfold bind at 1. unfold connect. rewrite fs_out, Hp.
  unfold bind at 1. unfold execute. rewrite parse_SELECT_QUERY.
  unfold load. cbn [conn_txn conn_path]. rewrite fs_out, Hp.
  cbn [Sql.exec]. rewrite Ht, Hci, Hwi.
  cbn [Sql.bind_exprs Sql.assoc find fst snd String.eqb Ascii.eqb Bool.eqb fmap option_fmap option_map
       head default id].
  fold (counted ci wi h (Sql.tbl_rows t)).
  unfold bind at 1. unfold close, ret. unfold bind at 1.
  cbn [lookup list_lookup mbind option_bind].
  subst found. destruct (length (counted ci wi h (Sql.tbl_rows t))) as [|n] eqn:Hn.
  - rewrite bool_decide_eq_true_2 by reflexivity. run_pure. reflexivity.
  - rewrite bool_decide_eq_false_2 by discriminate. run_pure. reflexivity.
Qed.

Lemma counted_has_digest t h ci wi :
  Sql.column_index "id" (Sql.tbl_columns t) = Some ci ->
  Sql.column_index "hash_value" (Sql.tbl_columns t) = Some wi ->
  has_digest t h <-> counted ci wi h (Sql.tbl_rows t) <> [].
Proof.
  intros Hci Hwi. unfold has_digest, counted. split.
  - intros (ci' & wi' & row & Hci' & Hwi' & Hin & Hid & Hh) Hnil.
    assert (ci' = ci) by congruence. assert (wi' = wi) by congruence. subst.
    assert (Hf : In row (List.filter (fun r => negb (bool_decide (Sql.cell r ci = Sql.Null))
                        && Sql.sql_eq (Sql.cell r wi) (Sql.Text h)) (Sql.tbl_rows t))).
    { apply filter_In. split; [apply list_elem_of_In; exact Hin|].
      unfold Sql.sql_eq. rewrite Hh.
      rewrite (bool_decide_eq_false_2 _ Hid).
      rewrite bool_decide_eq_false_2 by discriminate.
      rewrite bool_decide_eq_true_2 by reflexivity. reflexivity. }
    rewrite Hnil in Hf. destruct Hf.
  - intros Hne.
    destruct (List.filter _ (Sql.tbl_rows t)) as [|row rest] eqn:Hf; [congruence|].
    assert (Hin : In row (row :: rest)) by (left; reflexivity).
    rewrite <- Hf in Hin. apply filter_In in Hin as [Hin Hb].
    apply andb_true_iff in Hb as [Hid Heq].
    unfold Sql.sql_eq in Heq. apply andb_true_iff in Heq as [_ Heq].
    exists ci, wi, row. repeat split; try assumption.
    + apply list_elem_of_In. exact Hin.
    + apply negb_true_iff in Hid. apply bool_decide_eq_false in Hid. exact Hid.
    + apply bool_decide_eq_true in Heq. exact Heq.
Qed.


Lemma image_already_in_db_miss e p h w db t ci wi :
  fs w !! p = Some (Sqlite db) ->
  db !! "images" = Some t ->
  Sql.column_index "id" (Sql.tbl_columns t) = Some ci ->
  Sql.column_index "hash_value" (Sql.tbl_columns t) = Some wi ->
  ~ has_digest t h ->
  image_already_in_db e p h w = (Ret false, out w (lookup_messages false)).
Proof.
  intros Hp Ht Hci Hwi Hd.
  rewrite (image_already_in_db_run e p h w db t ci wi Hp Ht Hci Hwi).
  destruct (counted ci wi h (Sql.tbl_rows t)) eqn:Hc; [reflexivity|].
  exfalso. apply Hd. apply (counted_has_digest t h ci wi Hci Hwi). congruence.
Qed.

(** C3. Read-after-write through [add_image_to_db] does not hold: on
    every catalog that has an [images] table without the digest [h], the
    insert raises and the existence check that follows still answers
    [False]. *)
Theorem lookup_after_add_image_to_db (e : env) (w : world) (p image_path : string)
        (image_size : Z) (h : string) (db : gmap string Sql.table) (t : Sql.table)
        (ci wi : nat) :
  fs w !! p = Some (Sqlite db) ->
  db !! "images" = Some t ->
  Sql.column_index "id" (Sql.tbl_columns t) = Some ci ->
  Sql.column_index "hash_value" (Sql.tbl_columns t) = Some wi ->
  ~ has_digest t h ->
  exists err w1 w2,
    add_image_to_db e p image_path image_size h w = (Raise (SqliteError err), w1) /\
    image_already_in_db e p h w1 = (Ret false, w2).
Proof.
  intros Hp Ht Hci Hwi Hd.
  unfold add_image_to_db.
  rewrite (bind_ret _ _ _ _ _ (print_end_out _ _ _)).
  unfold bind at 1. unfold connect. rewrite fs_out, Hp.
  unfold bind at 1. unfold execute. rewrite parse_INSERT_QUERY.
  eexists _, _, _. split; [reflexivity|].
  apply (image_already_in_db_miss e p h _ db t ci wi); assumption.
Qed.

Lemma no_digest_in_empty_table h : ~ has_digest empty_images h.
Proof.
  intros (ci & wi & row & _ & _ & Hin & _). cbn in Hin. inversion Hin.
Qed.

Lemma lookup_after_add_image_to_db_witness :
  exists err w1 w2,
    add_image_to_db Sample.no_date Sample.db_path "C:\apod\img.jpg" 3 Sample.abc_digest
                    (Sample.with_catalog [])
    = (Raise (SqliteError err), w1) /\
    image_already_in_db Sample.no_date Sample.db_path Sample.abc_digest w1 = (Ret false, w2).
Proof.
  refine (lookup_after_add_image_to_db Sample.no_date (Sample.with_catalog []) Sample.db_path
            "C:\apod\img.jpg" 3 Sample.abc_digest _ empty_images 0 3 _ _ _ _ _).
  - apply lookup_singleton_eq.
  - apply lookup_singleton_eq.
  - reflexivity.
  - reflexivity.
  - apply no_digest_in_empty_table.
Defined.

(** With the parenthesis removed the same insert is read back. *)
Example balanced_insert_is_read_back :
  let run := Sample.add_image_balanced Sample.no_date Sample.db_path "C:\apod\img.jpg" 3
               Sample.abc_digest (Sample.with_catalog []) in
  fst run = Ret tt /\
  catalog_rows (snd run) Sample.db_path
  = [[Sql.Int 1; Sql.Text "C:\apod\img.jpg"; Sql.Int 3; Sql.Text Sample.abc_digest;
      Sql.Text "2022-04-17 12:00:00"]] /\
  fst (image_already_in_db Sample.no_date Sample.db_path Sample.abc_digest (snd run)) = Ret true.
Proof. vm_compute. repeat split; reflexivity. Qed.

(** ** get_apod_info *)

Lemma get_apod_info_run e date w :
  get_apod_info e date w =
  let w1 := sent w (metadata_request date) in
  match http e (metadata_request date) with
  | inl err => (Raise err, w1)
  | inr r =>
      if status_code r =? 200 then
        match json_body r with
        | Some j => (Ret j, out w1 ["Request to APOD successful!" ++ PyStr.nl])
        | None => (Raise JSONDecodeError, out w1 ["Request to APOD successful!" ++ PyStr.nl])
        end
      else if status_code r =? 404 then
        (Exit "Script execution aborted",
         out w1 ["Unable to establish connection: " ++ PyStr.str_of_Z (status_code r)
                 ++ PyStr.nl ++ "Make sure to input an existing past date." ++ PyStr.nl])
      else
        (Exit "Script execution aborted",
         out w1 ["Unable to establish connection: " ++ PyStr.str_of_Z (status_code r) ++ PyStr.nl])
  end.
Proof.
  unfold get_apod_info. fold (metadata_request date).
  unfold bind at 1. unfold get. cbv zeta.
  destruct (http e (metadata_request date)) as [err|r]; [reflexivity|].
  destruct (status_code r =? 200); [|destruct (status_code r =? 404)].
  - unfold json_of. destruct (json_body r); reflexivity.
  - unfold bind, print, print_end, exit, out, sent. cbn [fs stdout net desktop PyStr.join].
    rewrite !append_assoc. reflexivity.
  - reflexivity.
Qed.

(** What the claim of a record "containing at least the image URL"
    misses: a 200 response whose JSON has no [url] is returned as it is,
    and a 200 response that is not JSON makes the fetcher raise. *)
Lemma ok_response_without_url :
  (get_apod_info Edge.without_url "2022-04-17" Sample.fresh
   = (Ret (JObj [("title", JStr "Orion")]),
      out (sent Sample.fresh (metadata_request "2022-04-17"))
          ["Request to APOD successful!" ++ PyStr.nl])
   /\ Sql.assoc "url" [("title", JStr "Orion")] = None) /\
  get_apod_info Edge.not_json "2022-04-17" Sample.fresh
  = (Raise JSONDecodeError,
     out (sent Sample.fresh (metadata_request "2022-04-17"))
         ["Request to APOD successful!" ++ PyStr.nl]).
Proof. repeat split; vm_compute; reflexivity. Qed.

(** C6. The metadata fetcher, by the status of the response.  On 200 it
    prints its message and hands back the body parsed as JSON, whatever
    the document holds (nothing is looked up in it), and raises when the
    body is not JSON; on 404 it prints its message with the hint and
    exits; on any other status than 200 it exits too, so it never returns
    a value for a response that is not 200. *)
Theorem get_apod_info_outcomes (e : env) (date : string) (w : world) (r : response) :
  http e (metadata_request date) = inr r ->
  let w1 := sent w (metadata_request date) in
  (status_code r = 200 ->
     (forall j, json_body r = Some j ->
        get_apod_info e date w
        = (Ret j, out w1 ["Request to APOD successful!" ++ PyStr.nl])) /\
     (json_body r = None ->
        get_apod_info e date w
        = (Raise JSONDecodeError, out w1 ["Request to APOD successful!" ++ PyStr.nl]))) /\
  (status_code r = 404 ->
     get_apod_info e date w
     = (Exit "Script execution aborted",
        out w1 ["Unable to establish connection: 404" ++ PyStr.nl
                ++ "Make sure to input an existing past date." ++ PyStr.nl])) /\
  (status_code r <> 200 -> status_code r <> 404 ->
     get_apod_info e date w
     = (Exit "Script execution aborted",
        out w1 ["Unable to establish connection: " ++ PyStr.str_of_Z (status_code r)
                ++ PyStr.nl])) /\
  (forall j w', get_apod_info e date w = (Ret j, w') ->
     status_code r = 200 /\ json_body r = Some j).
Proof.
  intros Hr w1. rewrite get_apod_info_run, Hr. cbv zeta. fold w1.
  split; [|split; [|split]].
  - intros Hs. rewrite Hs. split; [intros j Hj|intros Hj]; rewrite Hj; reflexivity.
  - intros Hs. rewrite Hs. reflexivity.
  - intros Hs Hs'. apply Z.eqb_neq in Hs, Hs'. rewrite Hs, Hs'. reflexivity.
  - intros j w' H. destruct (status_code r =? 200) eqn:Hs.
    + split; [apply Z.eqb_eq; exact Hs|].
      destruct (json_body r); [congruence|discriminate].
    + destruct (status_code r =? 404); discriminate.
Qed.

Lemma get_apod_info_outcomes_witness :
  get_apod_info Sample.no_record "2022-04-17" Sample.fresh
  = (Exit "Script execution aborted",
     out (sent Sample.fresh (metadata_request "2022-04-17"))
         ["Unable to establish connection: 404" ++ PyStr.nl
          ++ "Make sure to input an existing past date." ++ PyStr.nl]).
Proof.
  exact (proj1 (proj2 (get_apod_info_outcomes Sample.no_record "2022-04-17" Sample.fresh
                         (Response 404 [] None) eq_refl)) eq_refl).
Defined.

(** ** The command line *)

Lemma argv_lookup_length e (i : nat) :
  (S i <=? length (argv e))%nat = bool_decide (is_Some (argv e !! i)).
Proof.
  destruct (argv e !! i) eqn:H.
  - rewrite bool_decide_eq_true_2 by eauto.
    apply Nat.leb_le. apply lookup_lt_Some in H. lia.
  - rewrite bool_decide_eq_false_2 by (intros [? ?]; discriminate).
    apply Nat.leb_gt. apply lookup_ge_None in H. lia.
Qed.

Lemma get_image_dir_path_run e w :
  get_image_dir_path e w =
  match argv e !! 1%nat with
  | Some dir =>
      if isdir e dir then (Ret dir, out w (directory_messages dir))
      else (Exit "Script execution aborted",
            out w ["Error: Non-existent directory " ++ dir ++ PyStr.nl])
  | None => (Exit "Script execution aborted",
             out w ["Error: Missing path parameter." ++ PyStr.nl])
  end.
Proof.
  unfold get_image_dir_path. rewrite (argv_lookup_length e 1).
  unfold argv_at. destruct (argv e !! 1%nat) as [dir|].
  - rewrite bool_decide_eq_true_2 by eauto.
    unfold bind at 1. unfold ret at 1. destruct (isdir e dir).
    + unfold bind, print, print_end, ret, out, directory_messages.
      cbn [fs stdout net desktop PyStr.join]. rewrite !append_assoc. reflexivity.
    + unfold bind, print, print_end, exit, out.
      cbn [fs stdout net desktop PyStr.join]. rewrite !append_assoc. reflexivity.
  - rewrite bool_decide_eq_false_2 by (intros [? ?]; discriminate). reflexivity.
Qed.

Lemma get_apod_date_run e w :
  get_apod_date e w =
  match resolved_date e with
  | Some d => (Ret d, out w ["APOD date: " ++ d ++ PyStr.nl])
  | None => (Exit "Script execution aborted", out w [date_error])
  end.
Proof.
  unfold get_apod_date, resolved_date. rewrite (argv_lookup_length e 2).
  unfold argv_at. destruct (argv e !! 2%nat) as [d|].
  - rewrite bool_decide_eq_true_2 by eauto. cbn [mbind option_bind].
    unfold bind at 1. unfold bind at 1. unfold ret at 1.
    destruct (Strptime.strptime d) as [ymd|]; cbn [mbind option_bind].
    + unfold ret at 1. unfold bind, print, print_end, ret, out.
      cbn [fs stdout net desktop PyStr.join]. rewrite !append_assoc. reflexivity.
    + reflexivity.
  - rewrite bool_decide_eq_false_2 by (intros [? ?]; discriminate).
    unfold bind, print, print_end, ret, out.
    cbn [fs stdout net desktop PyStr.join]. rewrite !append_assoc. reflexivity.
Qed.

Lemma resolved_date_malformed e d :
  argv e !! 2%nat = Some d -> Strptime.strptime d = None -> resolved_date e = None.
Proof.
  intros Ha Hs. unfold resolved_date. rewrite (argv_lookup_length e 2), Ha.
  rewrite bool_decide_eq_true_2 by eauto. cbn [mbind option_bind]. rewrite Hs. reflexivity.
Qed.

Lemma resolved_date_given e d :
  argv e !! 2%nat = Some d -> is_Some (Strptime.strptime d) -> resolved_date e = Some d.
Proof.
  intros Ha [ymd Hs]. unfold resolved_date. rewrite (argv_lookup_length e 2), Ha.
  rewrite bool_decide_eq_true_2 by eauto. cbn [mbind option_bind]. rewrite Hs. reflexivity.
Qed.

(** C7. A date argument that [strptime] rejects makes the date resolver
    print its error and exit, and makes the whole program exit with the
    network log, the files and the desktop as they were: no request is
    issued.  Where the directory argument is good the exit is the date
    resolver's. *)
Theorem malformed_date_aborts (e : env) (w : world) (d : string) :
  argv e !! 2%nat = Some d ->
  Strptime.strptime d = None ->
  get_apod_date e w = (Exit "Script execution aborted", out w [date_error]) /\
  (exists lines, main e w = (Exit "Script execution aborted", out w lines)) /\
  net (snd (main e w)) = net w /\
  (forall dir, argv e !! 1%nat = Some dir -> isdir e dir = true ->
     main e w = (Exit "Script execution aborted",
                 out w (directory_messages dir ++ [date_error])%list)).
Proof.
  intros Ha Hs. pose proof (resolved_date_malformed e d Ha Hs) as Hr.
  assert (Hdate : forall w0, get_apod_date e w0
                             = (Exit "Script execution aborted", out w0 [date_error])).
  { intros w0. rewrite get_apod_date_run, Hr. reflexivity. }
  assert (Hmain : exists lines, main e w = (Exit "Script execution aborted", out w lines)).
  { unfold main. unfold bind at 1. rewrite get_image_dir_path_run.
    destruct (argv e !! 1%nat) as [dir|]; [|eexists; reflexivity].
    destruct (isdir e dir); [|eexists; reflexivity].
    unfold bind at 1. rewrite Hdate. rewrite out_out. eexists; reflexivity. }
  split; [apply Hdate|]. split; [exact Hmain|]. split.
  - destruct Hmain as [lines ->]. reflexivity.
  - intros dir Hdir Hisdir. unfold main. unfold bind at 1.
    rewrite get_image_dir_path_run, Hdir, Hisdir.
    unfold bind at 1. rewrite Hdate, out_out. reflexivity.
Qed.

Lemma malformed_date_aborts_witness :
  Strptime.strptime "2022/13/40" = None /\
  main Sample.slashes Sample.fresh
  = (Exit "Script execution aborted",
     out Sample.fresh (directory_messages Sample.dir ++ [date_error])%list).
Proof.
  split; [reflexivity|].
  exact (proj2 (proj2 (proj2 (malformed_date_aborts Sample.slashes Sample.fresh "2022/13/40"
                                eq_refl eq_refl))) Sample.dir eq_refl eq_refl).
Defined.

(** C10. The date validator accepts [2022-1-5], which is not in the
    zero-padded form; an accepted argument is returned as it was typed;
    and the metadata request carries that text as its [date]. *)
Theorem unpadded_date_accepted :
  Strptime.strptime "2022-1-5" = Some (2022, 1, 5) /\
  strict_iso "2022-1-5" = false /\
  (forall e w d, argv e !! 2%nat = Some d -> is_Some (Strptime.strptime d) ->
     get_apod_date e w = (Ret d, out w ["APOD date: " ++ d ++ PyStr.nl])) /\
  (forall e w d, net (snd (get_apod_info e d w))
                 = (net w ++ [Request APOD_URL [("api_key", APOD_KEY); ("date", d)] false])%list) /\
  net (snd (main Sample.unpadded Sample.fresh))
  = [metadata_request "2022-1-5"; image_request Sample.image_url].
Proof.
  split; [reflexivity|]. split; [reflexivity|]. split; [|split].
  - intros e w d Ha Hs. rewrite get_apod_date_run, (resolved_date_given e d Ha Hs). reflexivity.
  - intros e w d. rewrite get_apod_info_run. cbv zeta. fold (metadata_request d).
    destruct (http e (metadata_request d)) as [err|r]; [reflexivity|].
    destruct (status_code r =? 200); [destruct (json_body r); reflexivity|].
    destruct (status_code r =? 404); reflexivity.
  - vm_compute. reflexivity.
Qed.

Lemma unpadded_date_accepted_witness :
  get_apod_date Sample.unpadded Sample.fresh
  = (Ret "2022-1-5", out Sample.fresh ["APOD date: " ++ "2022-1-5" ++ PyStr.nl]).
Proof.
  refine (proj1 (proj2 (proj2 unpadded_date_accepted)) Sample.unpadded Sample.fresh "2022-1-5" _ _).
  - reflexivity.
  - exists (2022, 1, 5). reflexivity.
Defined.

(** ** The steps of the pipeline *)

Lemma download_apod_image_run e url w :
  download_apod_image e url w =
  let w1 := sent w (image_request url) in
  match http e (image_request url) with
  | inl err => (Raise err, w1)
  | inr r =>
      if status_code r =? 200
      then (Ret r, out w1 ["Image sucessfully downloaded from " ++ url ++ PyStr.nl])
      else (Exit "Script execution aborted",
            out w1 ["Error: Unable to retrieve image from URL." ++ PyStr.nl])
  end.
Proof.
  unfold download_apod_image. fold (image_request url).
  unfold bind at 1. unfold get. cbv zeta.
  destruct (http e (image_request url)) as [err|r]; [reflexivity|].
  destruct (status_code r =? 200); [|reflexivity].
  unfold bind, print, print_end, ret, out, sent. cbn [fs stdout net desktop PyStr.join].
  rewrite !append_assoc. reflexivity.
Qed.

Lemma print_apod_info_run url path size sha w :
  print_apod_info url path size sha w = (Ret tt, out w (info_messages url path size sha)).
Proof.
  unfold print_apod_info, bind, print, print_end, out, info_messages.
  cbn [fs stdout net desktop PyStr.join]. rewrite <- !List.app_assoc. cbn [app].
  rewrite !append_assoc. reflexivity.
Qed.

Lemma set_desktop_background_image_run path w :
  set_desktop_background_image path w = (Ret tt, wallpaper_set w path).
Proof.
  unfold set_desktop_background_image, bind, print, print_end, wallpaper_set.
  cbn [fs stdout net desktop PyStr.join]. rewrite <- !List.app_assoc. reflexivity.
Qed.

Lemma subscript_url_run items url w :
  Sql.assoc "url" items = Some (JStr url) -> subscript_url (JObj items) w = (Ret url, w).
Proof. intros H. unfold subscript_url. rewrite H. reflexivity. Qed.

(** ** A run that finds the image in the catalog *)



(** ** A run whose metadata fetch answers 404 *)




(** Where the catalog cannot be ensured the run stops before the fetch. *)
Lemma catalog_unavailable_run e w dir date :
  argv e !! 1%nat = Some dir ->
  isdir e dir = true ->
  resolved_date e = Some date ->
  schema_available e (NtPath.join dir "apod_images.db") (fs w) = false ->
  exists err w', main e w = (Raise (SqliteError err), w') /\ fs w' = fs w /\ net w' = net w.
Proof.
  intros Hdir Hisdir Hdate Hav.
  unfold main.
  erewrite bind_ret by (rewrite get_image_dir_path_run, Hdir, Hisdir; reflexivity).
  cbv zeta.
  erewrite bind_ret by (rewrite get_apod_date_run, Hdate; reflexivity).
  erewrite bind_raise by (rewrite create_image_db_run; cbn [fs out]; rewrite Hav; reflexivity).
  eexists _, _. repeat split.
Qed.

(** ** No run adds a row to the catalog *)

Lemma same_rows_refl w : same_rows w w.
Proof. intros q. reflexivity. Qed.

Lemma same_rows_trans w1 w2 w3 :
  same_rows w1 w2 -> same_rows w2 w3 -> same_rows w1 w3.
Proof. intros H12 H23 q. rewrite H23. apply H12. Qed.

Lemma same_rows_same_fs w w' : fs w' = fs w -> same_rows w w'.
Proof. intros H q. unfold catalog_rows, images_table. rewrite H. reflexivity. Qed.

Lemma keeps_rows_bind {A B} (m : M A) (k : A -> M B) :
  keeps_rows m -> (forall a, keeps_rows (k a)) -> keeps_rows (bind m k).
Proof.
  intros Hm Hk w. specialize (Hm w). unfold bind.
  destruct (m w) as [[a|msg|ex] w1]; cbn [snd] in *; try exact Hm.
  eapply same_rows_trans; [exact Hm|apply Hk].
Qed.

Lemma keeps_files_bind {A B} (m : M A) (k : A -> M B) :
  keeps_files m -> (forall a, keeps_files (k a)) -> keeps_files (bind m k).
Proof.
  intros Hm Hk w. specialize (Hm w). unfold bind.
  destruct (m w) as [[a|msg|ex] w1]; cbn [snd] in *; try exact Hm.
  rewrite Hk. exact Hm.
Qed.

Lemma keeps_files_keeps_rows {A} (m : M A) : keeps_files m -> keeps_rows m.
Proof. intros H w. apply same_rows_same_fs. apply H. Qed.

(** Rows kept, then no row added: no row added. *)
Lemma adds_no_row_after {A B} (m : M A) (k : A -> M B) :
  keeps_rows m -> (forall a, adds_no_row (k a)) -> adds_no_row (bind m k).
Proof.
  intros Hm Hk w. specialize (Hm w). unfold bind.
  destruct (m w) as [[a|msg|ex] w1]; cbn [snd] in *;
    try (intros q; left; apply Hm).
  intros q. destruct (Hk a w1 q) as [H|H]; [left|right; exact H].
  rewrite H. apply Hm.
Qed.

(** No row added, then the files left alone: no row added. *)
Lemma adds_no_row_before {A B} (m : M A) (k : A -> M B) :
  adds_no_row m -> (forall a, keeps_files (k a)) -> adds_no_row (bind m k).
Proof.
  intros Hm Hk w. specialize (Hm w). unfold bind.
  destruct (m w) as [[a|msg|ex] w1]; cbn [snd] in *; try exact Hm.
  pose proof (Hk a w1) as Hf. intros q. specialize (Hm q).
  unfold catalog_rows, images_table in *. rewrite Hf. exact Hm.
Qed.

Lemma keeps_files_print args end_ : keeps_files (print_end args end_).
Proof. intros w. reflexivity. Qed.

Lemma keeps_files_ret {A} (a : A) : keeps_files (ret a).
Proof. intros w. reflexivity. Qed.

Lemma keeps_files_exit {A} msg : keeps_files (@exit A msg).
Proof. intros w. reflexivity. Qed.

Lemma keeps_files_raise {A} ex : keeps_files (@raise A ex).
Proof. intros w. reflexivity. Qed.

Lemma keeps_files_get_image_dir_path e : keeps_files (get_image_dir_path e).
Proof.
  intros w. rewrite get_image_dir_path_run.
  destruct (argv e !! 1%nat) as [dir|]; [destruct (isdir e dir)|]; reflexivity.
Qed.

Lemma keeps_files_get_apod_date e : keeps_files (get_apod_date e).
Proof. intros w. rewrite get_apod_date_run. destruct (resolved_date e); reflexivity. Qed.

Lemma keeps_files_get_apod_info e date : keeps_files (get_apod_info e date).
Proof.
  intros w. rewrite get_apod_info_run. cbv zeta.
  destruct (http e (metadata_request date)) as [err|r]; [reflexivity|].
  destruct (status_code r =? 200); [destruct (json_body r); reflexivity|].
  destruct (status_code r =? 404); reflexivity.
Qed.

Lemma keeps_files_subscript_url j : keeps_files (subscript_url j).
Proof.
  intros w. unfold subscript_url. destruct j; try reflexivity.
  destruct (Sql.assoc "url" items) as [[]|]; reflexivity.
Qed.

Lemma keeps_files_download_apod_image e url : keeps_files (download_apod_image e url).
Proof.
  intros w. rewrite download_apod_image_run. cbv zeta.
  destruct (http e (image_request url)) as [err|r]; [reflexivity|].
  destruct (status_code r =? 200); reflexivity.
Qed.

Lemma keeps_rows_create_image_db e p : keeps_rows (create_image_db e p).
Proof.
  intros w. rewrite create_image_db_run.
  destruct (schema_available e p (fs w)); cbn [snd].
  - intros q. exact (ensureSchema_rows e p w q).
  - apply same_rows_same_fs. reflexivity.
Qed.

(** The empty file [connect] creates where there was none holds no row,
    as the missing file did. *)
Lemma keeps_rows_connect e p : keeps_rows (connect e p).
Proof.
  intros w. unfold connect. destruct (fs w !! p) eqn:Hp; [apply same_rows_refl|].
  destruct (can_write e p); [|apply same_rows_refl].
  intros q. unfold catalog_rows, images_table. cbn [snd set_fs fs].
  destruct (decide (q = p)) as [->|Hq].
  - rewrite lookup_insert_eq, Hp. reflexivity.
  - rewrite lookup_insert_ne by congruence. reflexivity.
Qed.

Lemma select_changes_nothing db c n wc rhs ps db' rows :
  Sql.exec db (Sql.SelectCount c n wc rhs) ps <> inr (Some db', rows).
Proof.
  unfold Sql.exec. destruct (db !! n) as [t|]; [|discriminate].
  destruct (Sql.column_index c (Sql.tbl_columns t)); [|discriminate].
  destruct (Sql.column_index wc (Sql.tbl_columns t)); [|discriminate].
  destruct (Sql.bind_exprs [rhs] ps); discriminate.
Qed.

Lemma keeps_files_execute_select c ps : keeps_files (execute c SELECT_QUERY ps).
Proof.
  intros w. unfold execute. rewrite parse_SELECT_QUERY.
  destruct (load c w) as [err|db]; [reflexivity|].
  destruct (Sql.exec db _ ps) as [err|[[db'|] rows]] eqn:Hx; try reflexivity.
  exfalso. exact (select_changes_nothing _ _ _ _ _ _ _ _ Hx).
Qed.

Lemma keeps_rows_image_already_in_db e p h : keeps_rows (image_already_in_db e p h).
Proof.
  unfold image_already_in_db.
  apply keeps_rows_bind; [apply keeps_files_keeps_rows, keeps_files_print|intros _].
  apply keeps_rows_bind; [apply keeps_rows_connect|intros c].
  apply keeps_files_keeps_rows.
  apply keeps_files_bind; [apply keeps_files_execute_select|intros [c' rows]].
  apply keeps_files_bind; [apply keeps_files_ret|intros _].
  apply keeps_files_bind.
  - destruct (rows !! 0%nat ≫= (.!! 0%nat)); [apply keeps_files_ret|apply keeps_files_raise].
  - intros v. destruct (bool_decide (v = Sql.Int 0));
      (apply keeps_files_bind; [apply keeps_files_print|intros _; apply keeps_files_ret]).
Qed.

(** The one file [save_image_file] writes holds the raw bytes it was
    given; every other file is as it was. *)
Lemma adds_no_row_save_image_file e msg path : adds_no_row (save_image_file e msg path).
Proof.
  unfold save_image_file.
  apply adds_no_row_after; [apply keeps_files_keeps_rows, keeps_files_print|intros _].
  apply adds_no_row_before; [|intros _; apply keeps_files_print].
  intros w q. unfold write_binary_file.
  destruct (can_write e path); cbn [snd]; [|left; reflexivity].
  unfold catalog_rows, images_table. cbn [set_fs fs].
  destruct (decide (q = path)) as [->|Hq].
  - right. eexists. apply lookup_insert_eq.
  - left. rewrite lookup_insert_ne by congruence. reflexivity.
Qed.

(** Whatever the command line, the files and the servers, a run of the
    script gives no catalog a row: each has after the run the rows it had
    before, unless its file ends the run as raw bytes (the downloaded
    image written over it). *)
Lemma main_adds_no_row e : adds_no_row (main e).
Proof.
  unfold main.
  apply adds_no_row_after;
    [apply keeps_files_keeps_rows, keeps_files_get_image_dir_path|intros dir].
  cbv zeta.
  apply adds_no_row_after; [apply keeps_files_keeps_rows, keeps_files_get_apod_date|intros date].
  apply adds_no_row_after; [apply keeps_rows_create_image_db|intros _].
  apply adds_no_row_after; [apply keeps_files_keeps_rows, keeps_files_get_apod_info|intros info].
  apply adds_no_row_after; [apply keeps_files_keeps_rows, keeps_files_subscript_url|intros url].
  apply adds_no_row_after;
    [apply keeps_files_keeps_rows, keeps_files_download_apod_image|intros msg].
  apply adds_no_row_after.
  { apply keeps_files_keeps_rows. intros w. rewrite get_image_path_run. reflexivity. }
  intros path.
  apply adds_no_row_after.
  { apply keeps_files_keeps_rows. intros w. rewrite print_apod_info_run. reflexivity. }
  intros _.
  apply adds_no_row_after; [apply keeps_rows_image_already_in_db|intros cached].
  apply adds_no_row_before.
  { destruct cached; cbn [negb]; [|apply adds_no_row_save_image_file].
    intros w q. left. reflexivity. }
  intros _ w. rewrite set_desktop_background_image_run. reflexivity.
Qed.

(** ** Scenario A: first download of [b"abc"] *)

(** C1. The run of scenario A on a machine without a catalog: it
    returns; the path it computes is [C:\apod\img.jpg], which ends in
    [img.jpg]; the digest is that of [abc]; the size is 3; the image is
    written and set as background.  The [images] table has no row before
    the run and none after it: the catalog does not gain a row. *)
Theorem scenario_A_adds_no_row :
  let w' := snd (main Sample.no_date Sample.fresh) in
  fst (main Sample.no_date Sample.fresh) = Ret tt /\
  stdout w' =
    (directory_messages Sample.dir ++ [("APOD date: 2022-04-17" ++ PyStr.nl)%string]
     ++ create_messages ++ [("Request to APOD successful!" ++ PyStr.nl)%string]
     ++ [("Image sucessfully downloaded from https://example/img.jpg" ++ PyStr.nl)%string]
     ++ path_messages
     ++ info_messages Sample.image_url "C:\apod\img.jpg" 3 Sample.abc_digest
     ++ lookup_messages false
     ++ ["Saving image to local folder... "; ("done!" ++ PyStr.nl)%string]
     ++ ["Setting new desktop background... "; ("done!" ++ PyStr.nl)%string])%list /\
  PyStr.endswith "C:\apod\img.jpg" "img.jpg" = true /\
  sha256_hexdigest Sample.abc = Sample.abc_digest /\
  len Sample.abc = 3 /\
  fs w' !! "C:\apod\img.jpg" = Some (Raw Sample.abc) /\
  desktop w' = [(20, 0, "C:\apod\img.jpg", 0)] /\
  images_table w' Sample.db_path = Some empty_images /\
  length (catalog_rows Sample.fresh Sample.db_path) = 0%nat /\
  length (catalog_rows w' Sample.db_path) = 0%nat.
Proof.
  cbv zeta.
  do 9 (split; [vm_compute; reflexivity|]).
  vm_compute; reflexivity.
Qed.


(** * Further properties of the script *)

(** ** The directory argument *)

(** X1. Without a directory argument, or with one that is not a
    directory, the program prints the matching error and exits at once:
    it validates no date, creates no file, sends no request and leaves the
    desktop alone. *)
Theorem bad_directory_aborts (e : env) (w : world) :
  (argv e !! 1%nat = None ->
   main e w = (Exit "Script execution aborted",
               out w ["Error: Missing path parameter." ++ PyStr.nl])) /\
  (forall d, argv e !! 1%nat = Some d -> isdir e d = false ->
   main e w = (Exit "Script execution aborted",
               out w ["Error: Non-existent directory " ++ d ++ PyStr.nl])).
Proof.
  split.
  - intros Ha. unfold main.
    erewrite bind_exit by (rewrite get_image_dir_path_run, Ha; reflexivity). reflexivity.
  - intros d Ha Hd. unfold main.
    erewrite bind_exit by (rewrite get_image_dir_path_run, Ha, Hd; reflexivity). reflexivity.
Qed.

Lemma bad_directory_aborts_witness :
  main Edge.no_arguments Sample.fresh
  = (Exit "Script execution aborted",
     out Sample.fresh ["Error: Missing path parameter." ++ PyStr.nl]) /\
  main Edge.elsewhere_bad_date Sample.fresh
  = (Exit "Script execution aborted",
     out Sample.fresh ["Error: Non-existent directory " ++ "D:\nowhere" ++ PyStr.nl]).
Proof.
  split.
  - exact (proj1 (bad_directory_aborts Edge.no_arguments Sample.fresh) eq_refl).
  - exact (proj2 (bad_directory_aborts Edge.elsewhere_bad_date Sample.fresh)
             "D:\nowhere" eq_refl eq_refl).
Defined.

(** ** Failures after the catalog is ensured *)

(** The start of a run that gets as far as the metadata request. *)
Ltac run_setup Hdir Hisdir Hdate Hav :=
  unfold main;
  erewrite bind_ret by (rewrite get_image_dir_path_run, Hdir, Hisdir; reflexivity);
  cbv zeta;
  erewrite bind_ret by (rewrite get_apod_date_run, Hdate; reflexivity);
  erewrite bind_ret by (rewrite create_image_db_run; cbn [fs out]; rewrite Hav; reflexivity).





(** ** ntpath.join on plain names *)

Lemma nonempty_app_r a b : NtPath.nonempty b = true -> NtPath.nonempty (a ++ b) = true.
Proof. intros H. destruct a; [exact H|reflexivity]. Qed.

Lemma starts_with_sep_app a b :
  NtPath.starts_with_sep b = false ->
  NtPath.starts_with_sep (a ++ b) = NtPath.starts_with_sep a.
Proof. intros H. destruct a; [exact H|reflexivity]. Qed.

Lemma append_inj_l (a b c : string) : (a ++ b)%string = (a ++ c)%string -> b = c.
Proof.
  induction a as [|x a IH]; intros H; [exact H|].
  change (String x (a ++ b) = String x (a ++ c))%string in H.
  injection H as H. apply IH. exact H.
Qed.

Lemma plain_name_inv name :
  plain_name name = true ->
  NtPath.nonempty name = true /\ NtPath.starts_with_sep name = false /\
  NtPath.splitdrive name = ("", name).
Proof.
  unfold plain_name. intros H.
  apply andb_true_iff in H as [H Hs]. apply andb_true_iff in H as [Hn Hsep].
  apply negb_true_iff in Hsep. apply bool_decide_eq_true in Hs. auto.
Qed.

(** Joining a directory and a plain name puts the name after a prefix
    that the directory alone decides. *)
Lemma join_plain dir name :
  plain_name name = true -> NtPath.join dir name = (join_prefix dir ++ name)%string.
Proof.
  intros H. apply plain_name_inv in H as (Hn & Hsep & Hsplit).
  unfold NtPath.join, join_prefix, NtPath.join_step.
  destruct (NtPath.splitdrive dir) as [rd rp]. rewrite Hsplit, Hsep. cbn [fst snd].
  cbn [NtPath.nonempty andb].
  set (rp' := if NtPath.nonempty rp && negb (NtPath.ends_with_sep rp)
              then (rp ++ String NtPath.sep "")%string else rp).
  unfold NtPath.join_finish.
  rewrite (nonempty_app_r rp' name Hn), (starts_with_sep_app rp' name Hsep).
  cbn [andb].
  destruct (negb (NtPath.starts_with_sep rp') && NtPath.nonempty rd
            && negb match PyStr.last_char rd with
                    | Some c => Ascii.eqb c NtPath.colon
                    | None => false
                    end).
  - rewrite !append_assoc. reflexivity.
  - rewrite !append_assoc. reflexivity.
Qed.

Lemma join_plain_inj dir a b :
  plain_name a = true -> plain_name b = true ->
  NtPath.join dir a = NtPath.join dir b -> a = b.
Proof.
  intros Ha Hb. rewrite (join_plain dir a Ha), (join_plain dir b Hb).
  apply append_inj_l.
Qed.

(** X4. For a URL [pre/seg] whose last segment is a plain file name,
    [get_image_path] returns a prefix that depends on the directory only,
    followed by that name; so in one directory two different plain names
    give two different paths. *)
Theorem get_image_path_plain (w : world) (dir pre seg : string) :
  PyStr.contains "/" seg = false ->
  plain_name seg = true ->
  get_image_path (pre ++ String "/" seg) dir w
  = (Ret (join_prefix dir ++ seg)%string, out w path_messages) /\
  (forall pre' seg' w', PyStr.contains "/" seg' = false -> plain_name seg' = true ->
     fst (get_image_path (pre' ++ String "/" seg') dir w')
     = fst (get_image_path (pre ++ String "/" seg) dir w) ->
     seg' = seg).
Proof.
  intros Hs Hp. split.
  - rewrite get_image_path_run, (after_last_slash_segment pre seg Hs), (join_plain dir seg Hp).
    reflexivity.
  - intros pre' seg' w' Hs' Hp'. rewrite !get_image_path_run.
    rewrite (after_last_slash_segment pre seg Hs), (after_last_slash_segment pre' seg' Hs').
    cbn [fst]. intros H. injection H as H. exact (join_plain_inj dir seg' seg Hp' Hp H).
Qed.

Lemma get_image_path_plain_witness :
  get_image_path ("https://example" ++ String "/" "img.jpg") Sample.dir Sample.fresh
  = (Ret ("C:\apod\" ++ "img.jpg")%string, out Sample.fresh path_messages).
Proof.
  exact (proj1 (get_image_path_plain Sample.fresh Sample.dir "https://example" "img.jpg"
                  eq_refl eq_refl)).
Defined.

(** X5. A last segment that starts with one backslash and has no drive
    takes the file out of the chosen directory: where neither the
    directory nor the segment begins with two separators,
    [get_image_path] returns the drive of the directory followed by the
    segment, and the rest of the directory is dropped. *)
Theorem get_image_path_leaves_directory (w : world) (dir pre seg : string) :
  PyStr.contains "/" seg = false ->
  NtPath.starts_with_sep seg = true ->
  starts_with_two_seps seg = false ->
  starts_with_two_seps dir = false ->
  NtPath.splitdrive seg = ("", seg) ->
  get_image_path (pre ++ String "/" seg) dir w
  = (Ret (fst (NtPath.splitdrive dir) ++ seg)%string, out w path_messages).
Proof.
  intros Hs Hsep _ _ Hsplit.
  rewrite get_image_path_run, (after_last_slash_segment pre seg Hs).
  unfold NtPath.join, NtPath.join_step.
  destruct (NtPath.splitdrive dir) as [rd rp]. rewrite Hsplit, Hsep. cbn [fst snd].
  cbn [NtPath.nonempty orb]. unfold NtPath.join_finish.
  rewrite Hsep. rewrite andb_false_r. cbn [andb].
  destruct (NtPath.nonempty rd) eqn:Hrd; cbn [negb]; [reflexivity|].
  destruct rd; [reflexivity|discriminate].
Qed.

Lemma get_image_path_leaves_directory_witness :
  get_image_path ("https://example" ++ String "/" "\Windows\img.jpg") Sample.dir Sample.fresh
  = (Ret "C:\Windows\img.jpg", out Sample.fresh path_messages).
Proof.
  exact (get_image_path_leaves_directory Sample.fresh Sample.dir "https://example"
           "\Windows\img.jpg" eq_refl eq_refl eq_refl eq_refl eq_refl).
Defined.

(** ** A run that does not find the image in the catalog *)

Lemma images_table_inv w p t :
  images_table w p = Some t ->
  exists db, fs w !! p = Some (Sqlite db) /\ db !! "images" = Some t.
Proof.
  unfold images_table. destruct (fs w !! p) as [[b|db]|]; try discriminate. eauto.
Qed.

(** The run up to the lookup, for both requests answered 200: the world
    the lookup leaves and its answer decide the rest. *)
Lemma main_after_lookup e w dir date url meta img items t ci wi :
  argv e !! 1%nat = Some dir ->
  isdir e dir = true ->
  resolved_date e = Some date ->
  schema_available e (NtPath.join dir "apod_images.db") (fs w) = true ->
  http e (metadata_request date) = inr meta ->
  status_code meta = 200 ->
  json_body meta = Some (JObj items) ->
  Sql.assoc "url" items = Some (JStr url) ->
  http e (image_request url) = inr img ->
  status_code img = 200 ->
  images_table (set_fs (ensureSchema e (NtPath.join dir "apod_images.db") (fs w)) w)
               (NtPath.join dir "apod_images.db") = Some t ->
  Sql.column_index "id" (Sql.tbl_columns t) = Some ci ->
  Sql.column_index "hash_value" (Sql.tbl_columns t) = Some wi ->
  ~ has_digest t (sha256_hexdigest (content img)) ->
  exists w1,
    fs w1 = ensureSchema e (NtPath.join dir "apod_images.db") (fs w) /\
    net w1 = (net w ++ [metadata_request date; image_request url])%list /\
    desktop w1 = desktop w /\
    main e w =
    ((save_image_file e img (NtPath.join dir (after_last_slash url)) ;;
      set_desktop_background_image (NtPath.join dir (after_last_slash url))) w1).
Proof.
  intros Hdir Hisdir Hdate Hav Hmeta Hms Hmj Hurl Himg His Ht Hci Hwi Hd.
  apply images_table_inv in Ht as (db & Hp & Ht). cbn [fs set_fs] in Hp.
  run_setup Hdir Hisdir Hdate Hav.
  erewrite bind_ret by (rewrite get_apod_info_run, Hmeta, Hms, Hmj; reflexivity).
  erewrite bind_ret by (apply subscript_url_run; exact Hurl).
  erewrite bind_ret by (rewrite download_apod_image_run, Himg, His; reflexivity).
  erewrite bind_ret by apply get_image_path_run.
  erewrite bind_ret by apply print_apod_info_run.
  erewrite bind_ret by
    (apply (image_already_in_db_miss e _ _ _ db t ci wi);
     [exact Hp|exact Ht|exact Hci|exact Hwi|exact Hd]).
  cbn [negb].
  eexists. split; [|split; [|split; [|reflexivity]]].
  - reflexivity.
  - cbn [fs net desktop out sent set_fs]. rewrite <- List.app_assoc. reflexivity.
  - reflexivity.
Qed.

Lemma save_then_set_run e img path w :
  can_write e path = true ->
  exists w',
    (save_image_file e img path ;; set_desktop_background_image path) w = (Ret tt, w') /\
    fs w' = <[path := Raw (content img)]> (fs w) /\
    net w' = net w /\
    desktop w' = (desktop w ++ [(20, 0, path, 0)])%list.
Proof.
  intros Hcw.
  erewrite bind_ret by
    (unfold save_image_file;
     erewrite bind_ret by apply print_end_out;
     erewrite bind_ret by (unfold write_binary_file; rewrite Hcw; reflexivity);
     apply print_out).
  rewrite set_desktop_background_image_run.
  eexists. split; [reflexivity|]. repeat split.
Qed.

Lemma save_fails_run e img path w :
  can_write e path = false ->
  exists w',
    (save_image_file e img path ;; set_desktop_background_image path) w
    = (Raise (OSError path), w') /\
    fs w' = fs w /\ net w' = net w /\ desktop w' = desktop w.
Proof.
  intros Hcw.
  erewrite bind_raise by
    (unfold save_image_file;
     erewrite bind_ret by apply print_end_out;
     erewrite bind_raise by (unfold write_binary_file; rewrite Hcw; reflexivity);
     reflexivity).
  eexists. split; [reflexivity|]. repeat split.
Qed.

Section MissRun.

Context (e : env) (w : world) (dir date url : string) (meta img : response)
        (items : list (string * json)) (t : Sql.table) (ci wi : nat).

Let db_path := NtPath.join dir "apod_images.db".
Let image_path := NtPath.join dir (after_last_slash url).

Hypothesis Hdir : argv e !! 1%nat = Some dir.
Hypothesis Hisdir : isdir e dir = true.
Hypothesis Hdate : resolved_date e = Some date.
Hypothesis Hav : schema_available e db_path (fs w) = true.
Hypothesis Hmeta : http e (metadata_request date) = inr meta.
Hypothesis Hms : status_code meta = 200.
Hypothesis Hmj : json_body meta = Some (JObj items).
Hypothesis Hurl : Sql.assoc "url" items = Some (JStr url).
Hypothesis Himg : http e (image_request url) = inr img.
Hypothesis His : status_code img = 200.
Hypothesis Ht : images_table (set_fs (ensureSchema e db_path (fs w)) w) db_path = Some t.
Hypothesis Hci : Sql.column_index "id" (Sql.tbl_columns t) = Some ci.
Hypothesis Hwi : Sql.column_index "hash_value" (Sql.tbl_columns t) = Some wi.
Hypothesis Hd : ~ has_digest t (sha256_hexdigest (content img)).

Lemma miss_run_written :
  can_write e image_path = true ->
  exists w',
    main e w = (Ret tt, w') /\
    fs w' = <[image_path := Raw (content img)]> (ensureSchema e db_path (fs w)) /\
    net w' = (net w ++ [metadata_request date; image_request url])%list /\
    desktop w' = (desktop w ++ [(20, 0, image_path, 0)])%list.
Proof.
  intros Hcw.
  destruct (main_after_lookup e w dir date url meta img items t ci wi
              Hdir Hisdir Hdate Hav Hmeta Hms Hmj Hurl Himg His Ht Hci Hwi Hd)
    as (w1 & Hfs & Hnet & Hdesk & ->).
  destruct (save_then_set_run e img image_path w1 Hcw) as (w' & Hrun & Hfs' & Hnet' & Hdesk').
  exists w'. subst image_path db_path.
  rewrite Hrun, Hfs', Hnet', Hdesk', Hfs, Hnet, Hdesk. repeat split.
Qed.



(** X8. When the URL's last segment is [apod_images.db] the image is
    written over the catalog: after the run the database file holds the
    bytes of the image, and the background is set to the database
    file. *)
Theorem image_named_like_catalog_run :
  after_last_slash url = "apod_images.db" ->
  can_write e db_path = true ->
  exists w',
    main e w = (Ret tt, w') /\
    fs w' !! db_path = Some (Raw (content img)) /\
    desktop w' = (desktop w ++ [(20, 0, db_path, 0)])%list.
Proof.
  intros Hname Hcw.
  assert (Hip : image_path = db_path) by (subst image_path db_path; rewrite Hname; reflexivity).
  rewrite <- Hip in Hcw.
  destruct (miss_run_written Hcw) as (w' & Hrun & Hfs & _ & Hdesk).
  exists w'. split; [exact Hrun|]. split.
  - rewrite Hfs, Hip. apply lookup_insert_eq.
  - rewrite Hdesk, Hip. reflexivity.
Qed.

End MissRun.



Lemma image_named_like_catalog_run_witness :
  exists w',
    main Edge.named_like_catalog Sample.fresh = (Ret tt, w') /\
    fs w' !! NtPath.join Sample.dir "apod_images.db" = Some (Raw Sample.abc) /\
    desktop w'
    = (desktop Sample.fresh ++ [(20, 0, NtPath.join Sample.dir "apod_images.db", 0)])%list.
Proof.
  refine (image_named_like_catalog_run Edge.named_like_catalog Sample.fresh Sample.dir
            "2022-04-17" Edge.catalog_named_url
            (Response 200 [] (Some (JObj [("url", JStr Edge.catalog_named_url)])))
            (Response 200 Sample.abc None) [("url", JStr Edge.catalog_named_url)]
            empty_images 0 3
            eq_refl eq_refl eq_refl eq_refl eq_refl eq_refl eq_refl eq_refl eq_refl eq_refl
            _ eq_refl eq_refl _ eq_refl eq_refl).
  - vm_compute. reflexivity.
  - apply no_digest_in_empty_table.
Defined.



(** ** The catalog functions on their own *)

(** X10. On a catalog whose [images] table has the columns that
    [create_image_db] declares, [image_already_in_db] answers [True]
    exactly when some row holds the digest, and changes nothing but
    standard output. *)
Theorem image_already_in_db_decides (e : env) (p h : string) (w : world)
        (db : gmap string Sql.table) (t : Sql.table) :
  private_database_name p = false ->
  fs w !! p = Some (Sqlite db) ->
  db !! "images" = Some t ->
  Sql.tbl_columns t = images_columns ->
  exists found,
    image_already_in_db e p h w = (Ret found, out w (lookup_messages found)) /\
    (found = true <-> has_digest t h).
Proof.
  intros _ Hp Ht Hcols.
  assert (Hci : Sql.column_index "id" (Sql.tbl_columns t) = Some 0%nat)
    by (rewrite Hcols; reflexivity).
  assert (Hwi : Sql.column_index "hash_value" (Sql.tbl_columns t) = Some 3%nat)
    by (rewrite Hcols; reflexivity).
  exists (negb (length (counted 0 3 h (Sql.tbl_rows t)) =? 0)%nat).
  split; [exact (image_already_in_db_run e p h w db t 0 3 Hp Ht Hci Hwi)|].
  rewrite (counted_has_digest t h 0 3 Hci Hwi).
  destruct (counted 0 3 h (Sql.tbl_rows t)); cbn; split; congruence.
Qed.

Lemma image_already_in_db_decides_witness :
  exists found,
    image_already_in_db Sample.no_date Sample.db_path Sample.abc_digest
                        (Sample.with_catalog [Sample.abc_row])
    = (Ret found, out (Sample.with_catalog [Sample.abc_row]) (lookup_messages found)) /\
    (found = true <-> has_digest (Sql.Table images_columns [Sample.abc_row]) Sample.abc_digest).
Proof.
  exact (image_already_in_db_decides Sample.no_date Sample.db_path Sample.abc_digest
           (Sample.with_catalog [Sample.abc_row])
           {[ "images" := Sql.Table images_columns [Sample.abc_row] ]}
           (Sql.Table images_columns [Sample.abc_row])
           eq_refl eq_refl eq_refl eq_refl).
Defined.

Lemma image_already_in_db_without_table_effect e p h w :
  images_table w p = None ->
  exists err w',
    image_already_in_db e p h w = (Raise (SqliteError err), w') /\
    (fs w' = fs w \/ (fs w !! p = None /\ fs w' = <[p := Raw []]> (fs w))).
Proof.
  unfold images_table. intros Hnone. unfold image_already_in_db.
  rewrite (bind_ret _ _ _ _ _ (print_end_out _ _ _)).
  unfold bind at 1. unfold connect. rewrite fs_out.
  destruct (fs w !! p) as [[b|db]|] eqn:Hp.
  - unfold bind at 1. unfold execute. rewrite parse_SELECT_QUERY.
    unfold load. cbn [conn_txn conn_path]. rewrite fs_out, Hp.
    destruct b as [|b0 b].
    + cbn [Sql.exec]. rewrite lookup_empty. eexists _, _. split; [reflexivity|]. left. reflexivity.
    + eexists _, _. split; [reflexivity|]. left. reflexivity.
  - unfold bind at 1. unfold execute. rewrite parse_SELECT_QUERY.
    unfold load. cbn [conn_txn conn_path]. rewrite fs_out, Hp.
    cbn [Sql.exec]. rewrite Hnone. eexists _, _. split; [reflexivity|]. left. reflexivity.
  - destruct (can_write e p).
    + unfold bind at 1. unfold execute. rewrite parse_SELECT_QUERY.
      unfold load. cbn [conn_txn conn_path set_fs fs out]. rewrite lookup_insert_eq.
      cbn [Sql.exec]. rewrite lookup_empty. eexists _, _. split; [reflexivity|].
      right. split; reflexivity.
    + eexists _, _. split; [reflexivity|]. left. reflexivity.
Qed.


Lemma image_already_in_db_without_table_raises e p h w :
  images_table w p = None ->
  exists err w', image_already_in_db e p h w = (Raise (SqliteError err), w').
Proof.
  intros H. destruct (image_already_in_db_without_table_effect e p h w H) as (err & w' & Hr & _).
  eauto.
Qed.

(** X11. Where the database has no [images] table, the existence check
    gives no answer: it raises an sqlite3 error.  The files are as they
    were, except that a missing database file has been created empty. *)
Theorem image_already_in_db_without_table (e : env) (p h : string) (w : world) :
  images_table w p = None ->
  exists err w',
    image_already_in_db e p h w = (Raise (SqliteError err), w') /\
    (fs w' = fs w \/ (fs w !! p = None /\ fs w' = <[p := Raw []]> (fs w))).
Proof. exact (image_already_in_db_without_table_effect e p h w). Qed.

Lemma image_already_in_db_without_table_witness :
  exists err w',
    image_already_in_db Sample.no_date Sample.db_path Sample.abc_digest Sample.fresh
    = (Raise (SqliteError err), w') /\
    (fs w' = fs Sample.fresh \/
     (fs Sample.fresh !! Sample.db_path = None /\
      fs w' = <[Sample.db_path := Raw []]> (fs Sample.fresh))).
Proof.
  exact (image_already_in_db_without_table Sample.no_date Sample.db_path Sample.abc_digest
           Sample.fresh eq_refl).
Defined.

Lemma ensureSchema_table e p f :
  schema_available e p f = true ->
  exists db t,
    ensureSchema e p f !! p = Some (Sqlite db) /\ db !! "images" = Some t /\
    match f !! p with
    | Some (Sqlite db0) =>
        match db0 !! "images" with Some t0 => t = t0 | None => t = empty_images end
    | _ => t = empty_images
    end.
Proof.
  unfold schema_available, ensureSchema.
  destruct (f !! p) as [[[|b0 b]|db]|] eqn:Hp; intros H; try discriminate.
  - eexists _, _. rewrite lookup_insert_eq, lookup_singleton_eq. repeat split.
  - destruct (db !! "images") as [t0|] eqn:Ht.
    + exists db, t0. rewrite Hp. repeat split. exact Ht.
    + eexists _, _. rewrite lookup_insert_eq, lookup_insert_eq. repeat split.
  - rewrite H. eexists _, _. rewrite lookup_insert_eq, lookup_singleton_eq. repeat split.
Qed.

(** X12. What [create_image_db] guarantees for the name of a file.
    Either it returns, and then the database at the path has an [images]
    table: the one it had, or a new one with the five columns and no
    rows; no other file has changed.  Or it raises an sqlite3 error and
    no file has changed. *)
Theorem create_image_db_ensures (e : env) (p : string) (w : world) :
  private_database_name p = false ->
  (exists w' t,
     create_image_db e p w = (Ret tt, w') /\
     images_table w' p = Some t /\
     (forall t0, images_table w p = Some t0 -> t = t0) /\
     (images_table w p = None -> t = Sql.Table images_columns []) /\
     (forall q, q <> p -> fs w' !! q = fs w !! q))
  \/
  (exists err w', create_image_db e p w = (Raise (SqliteError err), w') /\ fs w' = fs w).
Proof.
  intros _. rewrite create_image_db_run.
  destruct (schema_available e p (fs w)) eqn:Hav; [left|right].
  - destruct (ensureSchema_table e p (fs w) Hav) as (db & t & Hp & Ht & Hwas).
    eexists _, t. split; [reflexivity|].
    unfold images_table. cbn [fs out set_fs]. rewrite Hp. split; [exact Ht|].
    split; [|split].
    + intros t0. destruct (fs w !! p) as [[b|db0]|]; try discriminate.
      destruct (db0 !! "images"); [congruence|discriminate].
    + intros Hnone. destruct (fs w !! p) as [[b|db0]|]; try exact Hwas.
      destruct (db0 !! "images") eqn:E; [discriminate Hnone|exact Hwas].
    + intros q Hq. apply ensureSchema_other. exact Hq.
  - eexists _, _. split; reflexivity.
Qed.

Lemma create_image_db_ensures_witness :
  (exists w' t,
     create_image_db Sample.no_date Sample.db_path Sample.fresh = (Ret tt, w') /\
     images_table w' Sample.db_path = Some t /\
     (forall t0, images_table Sample.fresh Sample.db_path = Some t0 -> t = t0) /\
     (images_table Sample.fresh Sample.db_path = None -> t = Sql.Table images_columns []) /\
     (forall q, q <> Sample.db_path -> fs w' !! q = fs Sample.fresh !! q))
  \/
  (exists err w',
     create_image_db Sample.no_date Sample.db_path Sample.fresh
     = (Raise (SqliteError err), w') /\ fs w' = fs Sample.fresh).
Proof.
  exact (create_image_db_ensures Sample.no_date Sample.db_path Sample.fresh eq_refl).
Defined.




(** ** What every run does to the network and to the desktop *)

Lemma keeps_bind {X A B} (proj : world -> X) (m : M A) (k : A -> M B) :
  keeps proj m -> (forall a, keeps proj (k a)) -> keeps proj (bind m k).
Proof.
  intros Hm Hk w. specialize (Hm w). unfold bind.
  destruct (m w) as [[a|msg|ex] w1]; cbn [snd] in *; try exact Hm.
  rewrite Hk. exact Hm.
Qed.

Lemma keeps_wires_net {A} (m : M A) : keeps wires m -> keeps net m.
Proof. intros H w. specialize (H w). unfold wires in H. congruence. Qed.

Lemma keeps_wires_desktop {A} (m : M A) : keeps wires m -> keeps desktop m.
Proof. intros H w. specialize (H w). unfold wires in H. congruence. Qed.

Lemma keeps_wires_print args end_ : keeps wires (print_end args end_).
Proof. intros w. reflexivity. Qed.

Lemma keeps_wires_ret {A} (a : A) : keeps wires (ret a).
Proof. intros w. reflexivity. Qed.

Lemma keeps_wires_exit {A} msg : keeps wires (@exit A msg).
Proof. intros w. reflexivity. Qed.

Lemma keeps_wires_raise {A} ex : keeps wires (@raise A ex).
Proof. intros w. reflexivity. Qed.

Lemma keeps_wires_connect e p : keeps wires (connect e p).
Proof.
  intros w. unfold connect. destruct (fs w !! p); [reflexivity|].
  destruct (can_write e p); reflexivity.
Qed.

Lemma keeps_wires_execute c query ps : keeps wires (execute c query ps).
Proof.
  intros w. unfold execute. destruct (Sql.parse query) as [st|]; [|reflexivity].
  destruct (load c w) as [err|db]; [reflexivity|].
  destruct (Sql.exec db st ps) as [err|[[db'|] rows]]; try reflexivity.
  destruct (Sql.is_dml st || bool_decide (is_Some (conn_txn c))); reflexivity.
Qed.

Lemma keeps_wires_commit c : keeps wires (commit c).
Proof. intros w. unfold commit. destruct (conn_txn c); reflexivity. Qed.

Lemma keeps_wires_get_image_dir_path e : keeps wires (get_image_dir_path e).
Proof.
  intros w. rewrite get_image_dir_path_run.
  destruct (argv e !! 1%nat) as [dir|]; [destruct (isdir e dir)|]; reflexivity.
Qed.

Lemma keeps_wires_get_apod_date e : keeps wires (get_apod_date e).
Proof. intros w. rewrite get_apod_date_run. destruct (resolved_date e); reflexivity. Qed.

Lemma keeps_wires_create_image_db e p : keeps wires (create_image_db e p).
Proof.
  intros w. rewrite create_image_db_run.
  destruct (schema_available e p (fs w)); reflexivity.
Qed.

Lemma keeps_wires_subscript_url j : keeps wires (subscript_url j).
Proof.
  intros w. unfold subscript_url. destruct j; try reflexivity.
  destruct (Sql.assoc "url" items) as [[]|]; reflexivity.
Qed.

Lemma keeps_wires_get_image_path url dir : keeps wires (get_image_path url dir).
Proof. intros w. rewrite get_image_path_run. reflexivity. Qed.

Lemma keeps_wires_print_apod_info url path size sha :
  keeps wires (print_apod_info url path size sha).
Proof. intros w. rewrite print_apod_info_run. reflexivity. Qed.

Lemma keeps_wires_image_already_in_db e p h : keeps wires (image_already_in_db e p h).
Proof.
  unfold image_already_in_db.
  apply keeps_bind; [apply keeps_wires_print|intros _].
  apply keeps_bind; [apply keeps_wires_connect|intros c].
  apply keeps_bind; [apply keeps_wires_execute|intros [c' rows]].
  apply keeps_bind; [apply keeps_wires_ret|intros _].
  apply keeps_bind.
  - destruct (rows !! 0%nat ≫= (.!! 0%nat)); [apply keeps_wires_ret|apply keeps_wires_raise].
  - intros v. destruct (bool_decide (v = Sql.Int 0));
      (apply keeps_bind; [apply keeps_wires_print|intros _; apply keeps_wires_ret]).
Qed.

Lemma keeps_wires_save_image_file e msg path : keeps wires (save_image_file e msg path).
Proof.
  unfold save_image_file.
  apply keeps_bind; [apply keeps_wires_print|intros _].
  apply keeps_bind; [|intros _; apply keeps_wires_print].
  intros w. unfold write_binary_file. destruct (can_write e path); reflexivity.
Qed.

(** [add_image_to_db] is not called by [main]; it too leaves the network
    and the desktop alone. *)
Lemma keeps_wires_add_image_to_db e p path size sha :
  keeps wires (add_image_to_db e p path size sha).
Proof.
  unfold add_image_to_db.
  apply keeps_bind; [apply keeps_wires_print|intros _].
  apply keeps_bind; [apply keeps_wires_connect|intros c].
  apply keeps_bind; [apply keeps_wires_execute|intros [c' rows]].
  apply keeps_bind; [apply keeps_wires_commit|intros c''].
  apply keeps_bind; [apply keeps_wires_ret|intros _; apply keeps_wires_print].
Qed.

Lemma keeps_desktop_get_apod_info e date : keeps desktop (get_apod_info e date).
Proof.
  intros w. rewrite get_apod_info_run. cbv zeta.
  destruct (http e (metadata_request date)) as [err|r]; [reflexivity|].
  destruct (status_code r =? 200); [destruct (json_body r); reflexivity|].
  destruct (status_code r =? 404); reflexivity.
Qed.

Lemma keeps_desktop_download_apod_image e url : keeps desktop (download_apod_image e url).
Proof.
  intros w. rewrite download_apod_image_run. cbv zeta.
  destruct (http e (image_request url)) as [err|r]; [reflexivity|].
  destruct (status_code r =? 200); reflexivity.
Qed.

Lemma sets_background_bind {A} (m : M A) (k : A -> M unit) :
  keeps desktop m -> (forall a, sets_background_iff_returns (k a)) ->
  sets_background_iff_returns (bind m k).
Proof.
  intros Hm Hk w. specialize (Hm w). unfold bind.
  destruct (m w) as [[a|msg|ex] w1]; cbn [fst snd] in *; try exact Hm.
  specialize (Hk a w1). rewrite <- Hm. exact Hk.
Qed.

Lemma sets_background_set_desktop path :
  sets_background_iff_returns (set_desktop_background_image path).
Proof.
  intros w. rewrite set_desktop_background_image_run. cbn [fst snd]. exists path. reflexivity.
Qed.

(** X14. Whatever the command line, the files and the servers, a run
    sets the desktop background exactly when it returns normally: one
    [SystemParametersInfoW(20, 0, path, 0)] call, the last thing it does;
    a run that exits or raises has not touched the desktop. *)
Theorem main_sets_background_iff_returns (e : env) (w : world) :
  match fst (main e w) with
  | Ret _ => exists path, desktop (snd (main e w)) = (desktop w ++ [(20, 0, path, 0)])%list
  | _ => desktop (snd (main e w)) = desktop w
  end.
Proof.
  revert w. change (sets_background_iff_returns (main e)). unfold main.
  apply sets_background_bind;
    [apply keeps_wires_desktop, keeps_wires_get_image_dir_path|intros dir].
  cbv zeta.
  apply sets_background_bind; [apply keeps_wires_desktop, keeps_wires_get_apod_date|intros date].
  apply sets_background_bind; [apply keeps_wires_desktop, keeps_wires_create_image_db|intros _].
  apply sets_background_bind; [apply keeps_desktop_get_apod_info|intros info].
  apply sets_background_bind; [apply keeps_wires_desktop, keeps_wires_subscript_url|intros url].
  apply sets_background_bind; [apply keeps_desktop_download_apod_image|intros msg].
  apply sets_background_bind; [apply keeps_wires_desktop, keeps_wires_get_image_path|intros path].
  apply sets_background_bind; [apply keeps_wires_desktop, keeps_wires_print_apod_info|intros _].
  apply sets_background_bind;
    [apply keeps_wires_desktop, keeps_wires_image_already_in_db|intros cached].
  apply sets_background_bind; [|intros _; apply sets_background_set_desktop].
  apply keeps_wires_desktop.
  destruct cached; cbn [negb]; [apply keeps_wires_ret|apply keeps_wires_save_image_file].
Qed.

Lemma app_nil_shape (l : list request) : l = (l ++ [])%list.
Proof. symmetry. apply List.app_nil_r. Qed.

(** After the download the run sends nothing more. *)
Lemma after_download_keeps_net e dir db_path url msg :
  keeps net
    (let* image_path := get_image_path url dir in
     print_apod_info url image_path (len (content msg)) (sha256_hexdigest (content msg)) ;;
     let* cached := image_already_in_db e db_path (sha256_hexdigest (content msg)) in
     (if negb cached then save_image_file e msg image_path else ret tt) ;;
     set_desktop_background_image image_path).
Proof.
  apply keeps_bind; [apply keeps_wires_net, keeps_wires_get_image_path|intros path].
  apply keeps_bind; [apply keeps_wires_net, keeps_wires_print_apod_info|intros _].
  apply keeps_bind; [apply keeps_wires_net, keeps_wires_image_already_in_db|intros cached].
  apply keeps_bind.
  - apply keeps_wires_net.
    destruct cached; cbn [negb]; [apply keeps_wires_ret|apply keeps_wires_save_image_file].
  - intros _ w. rewrite set_desktop_background_image_run. reflexivity.
Qed.

(** X15. The requests of a run, whatever its inputs: none at all; or
    the metadata request for the resolved date; or that request followed
    by one image request.  Never more than two, and never an image
    request that is not preceded by the metadata request. *)
Theorem main_requests (e : env) (w : world) :
  exists l, net (snd (main e w)) = (net w ++ l)%list /\ request_shape e l.
Proof.
  unfold main.
  destruct (argv e !! 1%nat) as [dir|] eqn:Hdir.
  2:{ erewrite bind_exit by (rewrite get_image_dir_path_run, Hdir; reflexivity).
      exists []. split; [apply app_nil_shape|left; reflexivity]. }
  destruct (isdir e dir) eqn:Hisdir.
  2:{ erewrite bind_exit by (rewrite get_image_dir_path_run, Hdir, Hisdir; reflexivity).
      exists []. split; [apply app_nil_shape|left; reflexivity]. }
  erewrite bind_ret by (rewrite get_image_dir_path_run, Hdir, Hisdir; reflexivity).
  cbv zeta.
  destruct (resolved_date e) as [date|] eqn:Hdate.
  2:{ erewrite bind_exit by (rewrite get_apod_date_run, Hdate; reflexivity).
      exists []. split; [apply app_nil_shape|left; reflexivity]. }
  erewrite bind_ret by (rewrite get_apod_date_run, Hdate; reflexivity).
  destruct (schema_available e (NtPath.join dir "apod_images.db") (fs w)) eqn:Hav.
  2:{ erewrite bind_raise by (rewrite create_image_db_run; cbn [fs out]; rewrite Hav; reflexivity).
      exists []. split; [apply app_nil_shape|left; reflexivity]. }
  erewrite bind_ret by (rewrite create_image_db_run; cbn [fs out]; rewrite Hav; reflexivity).
  assert (Hone : request_shape e [metadata_request date]).
  { right. exists date. split; [exact Hdate|left; reflexivity]. }
  destruct (http e (metadata_request date)) as [err|meta] eqn:Hmeta.
  { erewrite bind_raise by (rewrite get_apod_info_run, Hmeta; reflexivity).
    exists [metadata_request date]. split; [reflexivity|exact Hone]. }
  destruct (status_code meta =? 200) eqn:Hms.
  2:{ destruct (status_code meta =? 404) eqn:Hnf.
      - erewrite bind_exit by (rewrite get_apod_info_run, Hmeta, Hms, Hnf; reflexivity).
        exists [metadata_request date]. split; [reflexivity|exact Hone].
      - erewrite bind_exit by (rewrite get_apod_info_run, Hmeta, Hms, Hnf; reflexivity).
        exists [metadata_request date]. split; [reflexivity|exact Hone]. }
  destruct (json_body meta) as [info|] eqn:Hmj.
  2:{ erewrite bind_raise by (rewrite get_apod_info_run, Hmeta, Hms, Hmj; reflexivity).
      exists [metadata_request date]. split; [reflexivity|exact Hone]. }
  erewrite bind_ret by (rewrite get_apod_info_run, Hmeta, Hms, Hmj; reflexivity).
  match goal with |- context [bind (subscript_url info) ?k ?w1] =>
    destruct (subscript_url info w1) as [[url|msg|ex] w2] eqn:Hsub;
    pose proof (keeps_wires_net _ (keeps_wires_subscript_url info) w1) as Hnet;
    rewrite Hsub in Hnet; cbn [snd] in Hnet
  end.
  2:{ erewrite bind_exit by exact Hsub.
      exists [metadata_request date]. split; [cbn [snd]; rewrite Hnet; reflexivity|exact Hone]. }
  2:{ erewrite bind_raise by exact Hsub.
      exists [metadata_request date]. split; [cbn [snd]; rewrite Hnet; reflexivity|exact Hone]. }
  erewrite bind_ret by exact Hsub.
  assert (Htwo : request_shape e [metadata_request date; image_request url]).
  { right. exists date. split; [exact Hdate|right; exists url; reflexivity]. }
  exists [metadata_request date; image_request url]. split; [|exact Htwo].
  destruct (http e (image_request url)) as [err|img] eqn:Himg.
  { erewrite bind_raise by (rewrite download_apod_image_run, Himg; reflexivity).
    cbn [snd sent net]. rewrite Hnet. cbn [net out sent set_fs].
    rewrite <- List.app_assoc. reflexivity. }
  destruct (status_code img =? 200) eqn:His.
  2:{ erewrite bind_exit by (rewrite download_apod_image_run, Himg, His; reflexivity).
      cbn [snd sent net out]. rewrite Hnet. cbn [net out sent set_fs].
      rewrite <- List.app_assoc. reflexivity. }
  erewrite bind_ret by (rewrite download_apod_image_run, Himg, His; reflexivity).
  rewrite (after_download_keeps_net e dir _ url img).
  cbn [net out sent]. rewrite Hnet. cbn [net out sent set_fs].
  rewrite <- List.app_assoc. reflexivity.
Qed.

(** ** The dates the validator lets through *)

Lemma in_range_digit lo hi c : is_Some (Strptime.in_range lo hi c) -> is_Some (Strptime.digit c).
Proof.
  unfold Strptime.in_range. destruct (Strptime.digit c); [eauto|].
  cbn. intros [? ?]. discriminate.
Qed.

Lemma digit_date_char c : is_Some (Strptime.digit c) -> date_char c = true.
Proof. intros H. unfold date_char. rewrite bool_decide_eq_true_2 by exact H. reflexivity. Qed.

Lemma two_inv f g s v rest :
  (v, rest) ∈ Strptime.two f g s ->
  exists a b, s = String a (String b rest) /\ is_Some (f a) /\ is_Some (g b).
Proof.
  unfold Strptime.two. destruct s as [|a [|b s]]; try (intros H; inversion H; fail).
  destruct (f a) eqn:Ha; [|intros H; inversion H].
  destruct (g b) eqn:Hb; [|intros H; inversion H].
  intros H. apply list_elem_of_singleton in H. injection H as _ ->. eauto 6.
Qed.

Lemma one_inv f s v rest :
  (v, rest) ∈ Strptime.one f s -> exists a, s = String a rest /\ is_Some (f a).
Proof.
  unfold Strptime.one. destruct s as [|a s]; [intros H; inversion H|].
  destruct (f a) eqn:Ha; [|intros H; inversion H].
  intros H. apply list_elem_of_singleton in H. injection H as _ ->. eauto.
Qed.

Lemma hyphen_inv s rest : rest ∈ Strptime.hyphen s -> s = String "-" rest.
Proof.
  destruct s as [|a s]; [intros H; inversion H|].
  destruct a as [[] [] [] [] [] [] [] []]; cbn; intros H;
    try (inversion H; fail).
  apply list_elem_of_singleton in H. subst. reflexivity.
Qed.

Lemma space_then_inv f s v rest :
  (v, rest) ∈ Strptime.space_then f s ->
  exists a, s = String " " (String a rest) /\ is_Some (f a).
Proof.
  destruct s as [|c s]; [intros H; inversion H|].
  destruct c as [[] [] [] [] [] [] [] []]; cbn; intros H;
    try (inversion H; fail).
  apply one_inv in H as (a & -> & Ha). eauto.
Qed.

(** What the month and the day pieces can take from the text: one or two
    characters, digits or (for the day) a space and a digit. *)
Lemma month_inv s v rest :
  (v, rest) ∈ Strptime.month s ->
  exists pre, s = (pre ++ rest)%string /\ (1 <= String.length pre <= 2)%nat /\
              all_chars date_char pre = true.
Proof.
  unfold Strptime.month, Strptime.alternatives. cbn [flat_map].
  rewrite !elem_of_app. intros [H|[H|[H|H]]]; [| | |inversion H].
  - apply two_inv in H as (a & b & -> & Ha & Hb).
    exists (String a (String b "")). split; [reflexivity|]. split; [cbn; lia|].
    cbn. rewrite !digit_date_char by (eapply in_range_digit; eassumption). reflexivity.
  - apply two_inv in H as (a & b & -> & Ha & Hb).
    exists (String a (String b "")). split; [reflexivity|]. split; [cbn; lia|].
    cbn. rewrite !digit_date_char by (eapply in_range_digit; eassumption). reflexivity.
  - apply one_inv in H as (a & -> & Ha).
    exists (String a ""). split; [reflexivity|]. split; [cbn; lia|].
    cbn. rewrite !digit_date_char by (eapply in_range_digit; eassumption). reflexivity.
Qed.

Lemma day_inv s v rest :
  (v, rest) ∈ Strptime.day s ->
  exists pre, s = (pre ++ rest)%string /\ (1 <= String.length pre <= 2)%nat /\
              all_chars date_char pre = true.
Proof.
  unfold Strptime.day, Strptime.alternatives. cbn [flat_map].
  rewrite !elem_of_app. intros [H|[H|[H|[H|[H|H]]]]]; [| | | | |inversion H].
  - apply two_inv in H as (a & b & -> & Ha & Hb).
    exists (String a (String b "")). split; [reflexivity|]. split; [cbn; lia|].
    cbn. rewrite !digit_date_char by (eapply in_range_digit; eassumption). reflexivity.
  - apply two_inv in H as (a & b & -> & Ha & Hb).
    exists (String a (String b "")). split; [reflexivity|]. split; [cbn; lia|].
    cbn. rewrite (digit_date_char a) by (eapply in_range_digit; eassumption).
    rewrite (digit_date_char b) by exact Hb. reflexivity.
  - apply two_inv in H as (a & b & -> & Ha & Hb).
    exists (String a (String b "")). split; [reflexivity|]. split; [cbn; lia|].
    cbn. rewrite !digit_date_char by (eapply in_range_digit; eassumption). reflexivity.
  - apply one_inv in H as (a & -> & Ha).
    exists (String a ""). split; [reflexivity|]. split; [cbn; lia|].
    cbn. rewrite !digit_date_char by (eapply in_range_digit; eassumption). reflexivity.
  - apply space_then_inv in H as (a & -> & Ha).
    exists (String " " (String a "")). split; [reflexivity|]. split; [cbn; lia|].
    cbn [all_chars]. rewrite (digit_date_char a) by (eapply in_range_digit; eassumption).
    reflexivity.
Qed.

Lemma year_inv s v rest :
  (v, rest) ∈ Strptime.year s ->
  exists pre, s = (pre ++ rest)%string /\ String.length pre = 4%nat /\
              all_chars date_char pre = true.
Proof.
  unfold Strptime.year. intros H.
  apply list_elem_of_bind in H as ([hi s1] & H & H1).
  apply list_elem_of_bind in H as ([lo s2] & H & H2).
  apply list_elem_of_singleton in H. injection H as _ ->.
  apply two_inv in H1 as (a & b & -> & Ha & Hb).
  apply two_inv in H2 as (c & d & -> & Hc & Hd).
  exists (String a (String b (String c (String d "")))).
  split; [reflexivity|]. split; [reflexivity|].
  cbn. rewrite !digit_date_char by assumption. reflexivity.
Qed.

Lemma all_chars_app f a b :
  all_chars f a = true -> all_chars f b = true -> all_chars f (a ++ b) = true.
Proof.
  induction a as [|c a IH]; intros Ha Hb; [exact Hb|].
  cbn in Ha. apply andb_true_iff in Ha as [Hc Ha].
  change (f c && all_chars f (a ++ b) = true). rewrite Hc, (IH Ha Hb). reflexivity.
Qed.

Lemma length_append (a b : string) :
  String.length (a ++ b) = (String.length a + String.length b)%nat.
Proof.
  induction a as [|c a IH]; [reflexivity|].
  change (S (String.length (a ++ b)) = S (String.length a + String.length b)). rewrite IH.
  reflexivity.
Qed.

(** A text that [strptime] takes is eight to ten characters long, made
    of digits, hyphens and spaces, and stands for a calendar date. *)
Lemma strptime_shape (s : string) (y m d : Z) :
  Strptime.strptime s = Some (y, m, d) ->
  (8 <= String.length s <= 10)%nat /\
  all_chars date_char s = true /\
  calendar_date (y, m, d) = true.
Proof.
  unfold Strptime.strptime. destruct (Strptime.regex_match s) as [[[[y0 m0] d0] rest]|] eqn:Hm;
    [|discriminate].
  destruct rest; [|discriminate].
  destruct (Strptime.valid_date y0 m0 d0) eqn:Hv; [|discriminate].
  intros H. injection H as -> -> ->.
  unfold Strptime.regex_match in Hm. apply head_Some_elem_of in Hm.
  apply list_elem_of_bind in Hm as ([y1 s1] & Hm & Hy).
  apply list_elem_of_bind in Hm as (s2 & Hm & Hh1).
  apply list_elem_of_bind in Hm as ([m1 s3] & Hm & Hmo).
  apply list_elem_of_bind in Hm as (s4 & Hm & Hh2).
  apply list_elem_of_bind in Hm as ([d1 s5] & Hm & Hda).
  apply list_elem_of_singleton in Hm. injection Hm as _ _ _ <-.
  apply year_inv in Hy as (py & -> & Hly & Hcy).
  apply hyphen_inv in Hh1 as ->.
  apply month_inv in Hmo as (pm & -> & Hlm & Hcm).
  apply hyphen_inv in Hh2 as ->.
  apply day_inv in Hda as (pd & -> & Hld & Hcd).
  split; [|split; [|exact Hv]].
  - rewrite !length_append. cbn [String.length]. rewrite !length_append.
    cbn [String.length]. rewrite length_append. cbn [String.length]. lia.
  - apply all_chars_app; [exact Hcy|].
    change (date_char "-" && all_chars date_char (pm ++ String "-" (pd ++ "")) = true).
    apply andb_true_iff. split; [reflexivity|].
    apply all_chars_app; [exact Hcm|].
    change (date_char "-" && all_chars date_char (pd ++ "") = true).
    apply andb_true_iff. split; [reflexivity|].
    apply all_chars_app; [exact Hcd|reflexivity].
Qed.

(** X16. A date given on the command line and accepted by the resolver
    is handed on as it was typed, not rewritten in padded form, and is
    eight to ten characters long; nothing else is printed than the line
    that shows it. *)
Theorem accepted_date_shape (e : env) (w w' : world) (date : string) :
  (3 <=? length (argv e))%nat = true ->
  get_apod_date e w = (Ret date, w') ->
  argv e !! 2%nat = Some date /\
  (8 <= String.length date <= 10)%nat /\
  w' = out w ["APOD date: " ++ date ++ PyStr.nl].
Proof.
  intros Hlen. rewrite get_apod_date_run.
  destruct (resolved_date e) as [d|] eqn:Hr; [|discriminate].
  intros H. injection H as -> <-.
  unfold resolved_date in Hr. rewrite Hlen in Hr.
  destruct (argv e !! 2%nat) as [a|]; [|discriminate]. cbn [mbind option_bind] in Hr.
  destruct (Strptime.strptime a) as [[[y m] dd]|] eqn:Hs; [|discriminate].
  cbn [mbind option_bind] in Hr. injection Hr as <-.
  split; [reflexivity|]. split; [|reflexivity].
  exact (proj1 (strptime_shape a y m dd Hs)).
Qed.

Lemma accepted_date_shape_witness :
  argv Sample.unpadded !! 2%nat = Some "2022-1-5" /\
  (8 <= String.length "2022-1-5" <= 10)%nat /\
  out Sample.fresh ["APOD date: " ++ "2022-1-5" ++ PyStr.nl]
  = out Sample.fresh ["APOD date: " ++ "2022-1-5" ++ PyStr.nl].
Proof.
  exact (accepted_date_shape Sample.unpadded Sample.fresh
           (out Sample.fresh ["APOD date: " ++ "2022-1-5" ++ PyStr.nl]) "2022-1-5"
           eq_refl eq_refl).
Defined.


(** ** Today's date *)

Lemma padded_years :
  forallb (fun n => padded_text_ok 4 (Z.of_nat n)) (seq 0 (Z.to_nat 10000)) = true.
Proof. vm_compute. reflexivity. Qed.

Lemma padded_shorts : forallb (fun n => padded_text_ok 2 (Z.of_nat n)) (seq 0 100) = true.
Proof. vm_compute. reflexivity. Qed.

Lemma padded_year y :
  0 <= y <= 9999 ->
  exists a b c d xa xb xc xd,
    PyStr.zfill 4 (PyStr.str_of_Z y) = String a (String b (String c (String d ""))) /\
    Strptime.digit a = Some xa /\ Strptime.digit b = Some xb /\
    Strptime.digit c = Some xc /\ Strptime.digit d = Some xd /\
    100 * (10 * xa + xb) + (10 * xc + xd) = y.
Proof.
  intros Hy.
  assert (H : padded_text_ok 4 (Z.of_nat (Z.to_nat y)) = true).
  { apply (proj1 (forallb_forall _ _) padded_years). apply in_seq. lia. }
  rewrite Z2Nat.id in H by lia. unfold padded_text_ok in H. cbv zeta in H.
  apply andb_true_iff in H as [Hlen Hread].
  apply Nat.eqb_eq in Hlen. apply bool_decide_eq_true in Hread.
  destruct (PyStr.zfill 4 (PyStr.str_of_Z y)) as [|a [|b [|c [|d [|x s]]]]]; try discriminate.
  cbn [read_digits] in Hread.
  destruct (Strptime.digit a) as [xa|] eqn:Ha; [|discriminate].
  destruct (Strptime.digit b) as [xb|] eqn:Hb; [|discriminate].
  destruct (Strptime.digit c) as [xc|] eqn:Hc; [|discriminate].
  destruct (Strptime.digit d) as [xd|] eqn:Hd; [|discriminate].
  injection Hread as Hread. exists a, b, c, d, xa, xb, xc, xd.
  repeat split; try assumption. lia.
Qed.

Lemma padded_short n :
  0 <= n <= 99 ->
  exists a b,
    PyStr.zfill 2 (PyStr.str_of_Z n) = String a (String b "") /\
    is_Some (Strptime.digit a) /\ is_Some (Strptime.digit b).
Proof.
  intros Hn.
  assert (H : padded_text_ok 2 (Z.of_nat (Z.to_nat n)) = true).
  { apply (proj1 (forallb_forall _ _) padded_shorts). apply in_seq. lia. }
  rewrite Z2Nat.id in H by lia. unfold padded_text_ok in H. cbv zeta in H.
  apply andb_true_iff in H as [Hlen Hread].
  apply Nat.eqb_eq in Hlen. apply bool_decide_eq_true in Hread.
  destruct (PyStr.zfill 2 (PyStr.str_of_Z n)) as [|a [|b [|x s]]]; try discriminate.
  cbn [read_digits] in Hread.
  destruct (Strptime.digit a) as [xa|] eqn:Ha; [|discriminate].
  destruct (Strptime.digit b) as [xb|] eqn:Hb; [|discriminate].
  exists a, b. eauto.
Qed.

Lemma valid_date_bounds y m d :
  Strptime.valid_date y m d = true -> 1 <= y <= 9999 /\ 1 <= m <= 12 /\ 1 <= d <= 31.
Proof.
  unfold Strptime.valid_date, Strptime.days_in_month. intros H.
  repeat (apply andb_true_iff in H as [H ?]).
  assert (d <= 31).
  { destruct (m =? 2); [destruct (Strptime.is_leap y); lia|].
    destruct ((m =? 4) || (m =? 6) || (m =? 9) || (m =? 11)); lia. }
  lia.
Qed.

(** The year piece on four digit characters. *)
Lemma year_on_digits a b c d xa xb xc xd rest :
  Strptime.digit a = Some xa -> Strptime.digit b = Some xb ->
  Strptime.digit c = Some xc -> Strptime.digit d = Some xd ->
  Strptime.year (String a (String b (String c (String d rest))))
  = [(100 * (10 * xa + xb) + (10 * xc + xd), rest)].
Proof.
  intros Ha Hb Hc Hd. unfold Strptime.year, Strptime.two.
  rewrite Ha, Hb. cbn [mbind list_bind app]. rewrite Hc, Hd. reflexivity.
Qed.

Lemma small_cases (lo : nat) (len : nat) (n : Z) :
  Z.of_nat lo <= n < Z.of_nat (lo + len) -> In n (map Z.of_nat (seq lo len)).
Proof.
  intros H. apply in_map_iff. exists (Z.to_nat n). split; [lia|]. apply in_seq. lia.
Qed.

Lemma regex_match_isoformat y m d :
  1 <= y <= 9999 -> 1 <= m <= 12 -> 1 <= d <= 31 ->
  Strptime.regex_match (isoformat (y, m, d)) = Some (y, m, d, "").
Proof.
  intros Hy Hm Hd.
  destruct (padded_year y ltac:(lia)) as (a & b & c & d0 & xa & xb & xc & xd & Htext & Ha & Hb & Hc & Hd0 & Hval).
  unfold isoformat. rewrite Htext.
  change (Strptime.regex_match
            (String a (String b (String c (String d0
               ("-" ++ PyStr.zfill 2 (PyStr.str_of_Z m) ++ "-"
                ++ PyStr.zfill 2 (PyStr.str_of_Z d))%string))))
          = Some (y, m, d, "")).
  unfold Strptime.regex_match.
  rewrite (year_on_digits a b c d0 xa xb xc xd _ Ha Hb Hc Hd0), Hval.
  clear Htext Ha Hb Hc Hd0 Hval a b c d0 xa xb xc xd.
  pose proof (small_cases 1 12 m ltac:(lia)) as Hmc.
  pose proof (small_cases 1 31 d ltac:(lia)) as Hdc.
  cbn [seq map In] in Hmc, Hdc.
  repeat (destruct Hmc as [<-|Hmc]); try contradiction;
    repeat (destruct Hdc as [<-|Hdc]); try contradiction; reflexivity.
Qed.

Lemma strptime_isoformat y m d :
  Strptime.valid_date y m d = true ->
  Strptime.strptime (isoformat (y, m, d)) = Some (y, m, d).
Proof.
  intros Hv. pose proof (valid_date_bounds y m d Hv) as (Hy & Hm & Hd).
  unfold Strptime.strptime. rewrite (regex_match_isoformat y m d Hy Hm Hd), Hv. reflexivity.
Qed.

Lemma strict_iso_isoformat y m d :
  Strptime.valid_date y m d = true -> strict_iso (isoformat (y, m, d)) = true.
Proof.
  intros Hv. pose proof (valid_date_bounds y m d Hv) as (Hy & Hm & Hd).
  destruct (padded_year y ltac:(lia))
    as (a & b & c & d0 & xa & xb & xc & xd & Htext & Ha & Hb & Hc & Hd0 & _).
  destruct (padded_short m ltac:(lia)) as (m1 & m2 & Hmt & Hm1 & Hm2).
  destruct (padded_short d ltac:(lia)) as (d1 & d2 & Hdt & Hd1 & Hd2).
  unfold isoformat. rewrite Htext, Hmt, Hdt.
  change (strict_iso (String a (String b (String c (String d0 (String "-"
            (String m1 (String m2 (String "-" (String d1 (String d2 "")))))))))) = true).
  unfold strict_iso. cbn [list_ascii_of_string forallb].
  rewrite Ha, Hb, Hc, Hd0.
  rewrite (bool_decide_eq_true_2 _ Hm1), (bool_decide_eq_true_2 _ Hm2).
  rewrite (bool_decide_eq_true_2 _ Hd1), (bool_decide_eq_true_2 _ Hd2).
  reflexivity.
Qed.

Lemma resolved_date_today e :
  argv e !! 2%nat = None -> resolved_date e = Some (isoformat (today e)).
Proof.
  intros Ha. unfold resolved_date. rewrite (argv_lookup_length e 2), Ha.
  rewrite bool_decide_eq_false_2 by (intros [? ?]; discriminate). reflexivity.
Qed.

(** X17. Without a date argument the date resolver returns today's
    date written as zero-padded [YYYY-MM-DD], a text that the validator
    itself reads back as today's date. *)
Theorem today_is_resolved (e : env) (w : world) :
  argv e !! 2%nat = None ->
  calendar_date (today e) = true ->
  get_apod_date e w
  = (Ret (isoformat (today e)), out w ["APOD date: " ++ isoformat (today e) ++ PyStr.nl]) /\
  strict_iso (isoformat (today e)) = true /\
  Strptime.strptime (isoformat (today e)) = Some (today e).
Proof.
  intros Ha Hc. destruct (today e) as [[y m] d] eqn:Ht. cbn in Hc.
  split; [|split].
  - rewrite get_apod_date_run, (resolved_date_today e Ha), Ht. reflexivity.
  - apply strict_iso_isoformat. exact Hc.
  - apply strptime_isoformat. exact Hc.
Qed.

Lemma today_is_resolved_witness :
  get_apod_date Sample.no_date Sample.fresh
  = (Ret "2022-04-17", out Sample.fresh ["APOD date: " ++ "2022-04-17" ++ PyStr.nl]) /\
  strict_iso "2022-04-17" = true /\
  Strptime.strptime "2022-04-17" = Some (2022, 4, 17).
Proof. exact (today_is_resolved Sample.no_date Sample.fresh eq_refl eq_refl). Defined.

(** X18. Whatever date the resolver returns, given on the command
    line or taken from the clock, is text that [strptime] reads as a
    calendar date: the [date] parameter of the metadata request is never
    anything else. *)
Theorem resolved_date_is_calendar_date (e : env) (w w' : world) (date : string) :
  calendar_date (today e) = true ->
  get_apod_date e w = (Ret date, w') ->
  exists ymd, Strptime.strptime date = Some ymd /\ calendar_date ymd = true.
Proof.
  intros Hc. rewrite get_apod_date_run.
  destruct (resolved_date e) as [d|] eqn:Hr; [|discriminate].
  intros H. injection H as -> _.
  unfold resolved_date in Hr.
  destruct (3 <=? length (argv e))%nat.
  - destruct (argv e !! 2%nat) as [a|]; [|discriminate]. cbn [mbind option_bind] in Hr.
    destruct (Strptime.strptime a) as [[[y m] dd]|] eqn:Hs; [|discriminate].
    cbn [mbind option_bind] in Hr. injection Hr as <-.
    exists (y, m, dd). split; [exact Hs|].
    unfold Strptime.strptime in Hs.
    destruct (Strptime.regex_match a) as [[[[y0 m0] d0] rest]|]; [|discriminate].
    destruct rest; [|discriminate].
    destruct (Strptime.valid_date y0 m0 d0) eqn:Hv; [|discriminate].
    injection Hs as <- <- <-. exact Hv.
  - injection Hr as <-. destruct (today e) as [[y m] dd]. cbn in Hc.
    exists (y, m, dd). split; [apply strptime_isoformat; exact Hc|exact Hc].
Qed.

Lemma resolved_date_is_calendar_date_witness :
  exists ymd, Strptime.strptime "2022-1-5" = Some ymd /\ calendar_date ymd = true.
Proof.
  exact (resolved_date_is_calendar_date Sample.unpadded Sample.fresh
           (out Sample.fresh ["APOD date: " ++ "2022-1-5" ++ PyStr.nl]) "2022-1-5"
           eq_refl eq_refl).
Defined.

(** ** A run that returns *)

(** When the existence check answers, the catalog had its table and the
    answer says whether the digest is in it. *)
Lemma image_already_in_db_inv e p h w found w' :
  image_already_in_db e p h w = (Ret found, w') ->
  w' = out w (lookup_messages found) /\
  exists t, images_table w p = Some t /\ (found = true <-> has_digest t h).
Proof.
  intros H.
  destruct (images_table w p) as [t|] eqn:Ht.
  - pose proof Ht as Ht0. apply images_table_inv in Ht0 as (db & Hp & Htab).
    destruct (Sql.column_index "id" (Sql.tbl_columns t)) as [ci|] eqn:Hci.
    + destruct (Sql.column_index "hash_value" (Sql.tbl_columns t)) as [wi|] eqn:Hwi.
      * rewrite (image_already_in_db_run e p h w db t ci wi Hp Htab Hci Hwi) in H.
        injection H as <- <-. split; [reflexivity|]. exists t. split; [reflexivity|].
        rewrite (counted_has_digest t h ci wi Hci Hwi).
        destruct (counted ci wi h (Sql.tbl_rows t)); cbn; split; congruence.
      * exfalso. revert H. unfold image_already_in_db.
        rewrite (bind_ret _ _ _ _ _ (print_end_out _ _ _)).
        unfold bind at 1. unfold connect. rewrite fs_out, Hp.
        unfold bind at 1. unfold execute. rewrite parse_SELECT_QUERY.
        unfold load. cbn [conn_txn conn_path]. rewrite fs_out, Hp.
        cbn [Sql.exec]. rewrite Htab, Hci, Hwi. discriminate.
    + exfalso. revert H. unfold image_already_in_db.
      rewrite (bind_ret _ _ _ _ _ (print_end_out _ _ _)).
      unfold bind at 1. unfold connect. rewrite fs_out, Hp.
      unfold bind at 1. unfold execute. rewrite parse_SELECT_QUERY.
      unfold load. cbn [conn_txn conn_path]. rewrite fs_out, Hp.
      cbn [Sql.exec]. rewrite Htab, Hci. discriminate.
  - exfalso.
    destruct (image_already_in_db_without_table_raises e p h w Ht) as (err & w1 & Hr).
    rewrite Hr in H. discriminate.
Qed.

Lemma subscript_url_inv j url w w' :
  subscript_url j w = (Ret url, w') ->
  w' = w /\ exists items, j = JObj items /\ Sql.assoc "url" items = Some (JStr url).
Proof.
  unfold subscript_url. destruct j; try discriminate.
  destruct (Sql.assoc "url" items) as [[]|] eqn:Hu; try discriminate.
  intros H. injection H as <- <-. eauto.
Qed.

(** X19. What a run that returns has done.  Both requests were
    answered 200, the background is set to the directory joined with the
    URL's last segment, and either the file at that path now holds the
    downloaded bytes, or the digest of those bytes was in the catalog and
    no file was written: the files are as [create_image_db] left them. *)
Theorem main_returns (e : env) (w w' : world) :
  main e w = (Ret tt, w') ->
  exists dir date url meta img items,
    argv e !! 1%nat = Some dir /\ isdir e dir = true /\
    resolved_date e = Some date /\
    http e (metadata_request date) = inr meta /\ status_code meta = 200 /\
    json_body meta = Some (JObj items) /\ Sql.assoc "url" items = Some (JStr url) /\
    http e (image_request url) = inr img /\ status_code img = 200 /\
    desktop w' = (desktop w ++ [(20, 0, NtPath.join dir (after_last_slash url), 0)])%list /\
    (fs w' !! NtPath.join dir (after_last_slash url) = Some (Raw (content img))
     \/ (fs w' = ensureSchema e (NtPath.join dir "apod_images.db") (fs w) /\
         exists t, images_table w' (NtPath.join dir "apod_images.db") = Some t /\
                   has_digest t (sha256_hexdigest (content img)))).
Proof.
  unfold main. intros H.
  destruct (argv e !! 1%nat) as [dir|] eqn:Hdir.
  2:{ erewrite bind_exit in H by (rewrite get_image_dir_path_run, Hdir; reflexivity).
      discriminate. }
  destruct (isdir e dir) eqn:Hisdir.
  2:{ erewrite bind_exit in H by (rewrite get_image_dir_path_run, Hdir, Hisdir; reflexivity).
      discriminate. }
  erewrite bind_ret in H by (rewrite get_image_dir_path_run, Hdir, Hisdir; reflexivity).
  cbv zeta in H.
  destruct (resolved_date e) as [date|] eqn:Hdate.
  2:{ erewrite bind_exit in H by (rewrite get_apod_date_run, Hdate; reflexivity). discriminate. }
  erewrite bind_ret in H by (rewrite get_apod_date_run, Hdate; reflexivity).
  destruct (schema_available e (NtPath.join dir "apod_images.db") (fs w)) eqn:Hav.
  2:{ erewrite bind_raise in H
        by (rewrite create_image_db_run; cbn [fs out]; rewrite Hav; reflexivity).
      discriminate. }
  erewrite bind_ret in H by (rewrite create_image_db_run; cbn [fs out]; rewrite Hav; reflexivity).
  destruct (http e (metadata_request date)) as [err|meta] eqn:Hmeta.
  { erewrite bind_raise in H by (rewrite get_apod_info_run, Hmeta; reflexivity). discriminate. }
  destruct (status_code meta =? 200) eqn:Hms.
  2:{ destruct (status_code meta =? 404) eqn:Hnf;
        erewrite bind_exit in H by (rewrite get_apod_info_run, Hmeta, Hms, Hnf; reflexivity);
        discriminate. }
  destruct (json_body meta) as [info|] eqn:Hmj.
  2:{ erewrite bind_raise in H by (rewrite get_apod_info_run, Hmeta, Hms, Hmj; reflexivity).
      discriminate. }
  erewrite bind_ret in H by (rewrite get_apod_info_run, Hmeta, Hms, Hmj; reflexivity).
  match type of H with context [bind (subscript_url info) ?k ?w1] =>
    destruct (subscript_url info w1) as [[url|msg|ex] w2] eqn:Hsub
  end.
  2:{ erewrite bind_exit in H by exact Hsub. discriminate. }
  2:{ erewrite bind_raise in H by exact Hsub. discriminate. }
  erewrite bind_ret in H by exact Hsub.
  apply subscript_url_inv in Hsub as (-> & items & -> & Hurl).
  destruct (http e (image_request url)) as [err|img] eqn:Himg.
  { erewrite bind_raise in H by (rewrite download_apod_image_run, Himg; reflexivity).
    discriminate. }
  destruct (status_code img =? 200) eqn:His.
  2:{ erewrite bind_exit in H by (rewrite download_apod_image_run, Himg, His; reflexivity).
      discriminate. }
  erewrite bind_ret in H by (rewrite download_apod_image_run, Himg, His; reflexivity).
  erewrite bind_ret in H by apply get_image_path_run.
  erewrite bind_ret in H by apply print_apod_info_run.
  match type of H with context [bind (image_already_in_db e ?p ?h) ?k ?w5] =>
    destruct (image_already_in_db e p h w5) as [[cached|msg|ex] w6] eqn:Hlook
  end.
  2:{ erewrite bind_exit in H by exact Hlook. discriminate. }
  2:{ erewrite bind_raise in H by exact Hlook. discriminate. }
  erewrite bind_ret in H by exact Hlook.
  apply image_already_in_db_inv in Hlook as (-> & t & Ht & Hfound).
  apply Z.eqb_eq in Hms, His.
  exists dir, date, url, meta, img, items.
  do 9 (split; [first [assumption|reflexivity]|]).
  destruct cached; cbn [negb] in H.
  - erewrite bind_ret in H by reflexivity.
    rewrite set_desktop_background_image_run in H. injection H as <-.
    split; [reflexivity|]. right. split; [reflexivity|].
    exists t. split; [exact Ht|]. apply Hfound. reflexivity.
  - destruct (can_write e (NtPath.join dir (after_last_slash url))) eqn:Hcw.
    + match type of H with context [bind (save_image_file e img ?path) ?k ?w6] =>
        destruct (save_then_set_run e img path w6 Hcw) as (w7 & Hrun & Hfs & _ & Hdesk)
      end.
      rewrite Hrun in H. injection H as <-.
      split; [rewrite Hdesk; reflexivity|]. left. rewrite Hfs. apply lookup_insert_eq.
    + match type of H with context [bind (save_image_file e img ?path) ?k ?w6] =>
        destruct (save_fails_run e img path w6 Hcw) as (w7 & Hrun & _)
      end.
      rewrite Hrun in H. discriminate.
Qed.

Lemma main_returns_witness :
  exists dir date url meta img items,
    argv Sample.no_date !! 1%nat = Some dir /\ isdir Sample.no_date dir = true /\
    resolved_date Sample.no_date = Some date /\
    http Sample.no_date (metadata_request date) = inr meta /\ status_code meta = 200 /\
    json_body meta = Some (JObj items) /\ Sql.assoc "url" items = Some (JStr url) /\
    http Sample.no_date (image_request url) = inr img /\ status_code img = 200 /\
    desktop (snd (main Sample.no_date Sample.fresh))
    = (desktop Sample.fresh ++ [(20, 0, NtPath.join dir (after_last_slash url), 0)])%list /\
    (fs (snd (main Sample.no_date Sample.fresh)) !! NtPath.join dir (after_last_slash url)
     = Some (Raw (content img))
     \/ (fs (snd (main Sample.no_date Sample.fresh))
         = ensureSchema Sample.no_date (NtPath.join dir "apod_images.db") (fs Sample.fresh) /\
         exists t, images_table (snd (main Sample.no_date Sample.fresh))
                                (NtPath.join dir "apod_images.db") = Some t /\
                   has_digest t (sha256_hexdigest (content img)))).
Proof.
  refine (main_returns Sample.no_date Sample.fresh (snd (main Sample.no_date Sample.fresh)) _).
  vm_compute. reflexivity.
Defined.

(** ** The background path on a cache hit *)




(** ** A URL that ends in a slash *)

Lemma append_nil_r (s : string) : (s ++ "")%string = s.
Proof.
  induction s as [|c s IH]; [reflexivity|].
  change (String c (s ++ "") = String c s). rewrite IH. reflexivity.
Qed.

(** X21. A URL that ends in a slash has an empty last segment: for a
    directory given without drive, and not beginning with two separators,
    [get_image_path] returns the directory itself, closed by a separator,
    whatever the URL; the image path names no file. *)
Theorem get_image_path_empty_segment (w : world) (dir pre : string) :
  starts_with_two_seps dir = false ->
  NtPath.splitdrive dir = ("", dir) ->
  get_image_path (pre ++ String "/" "") dir w
  = (Ret (if NtPath.nonempty dir && negb (NtPath.ends_with_sep dir)
          then dir ++ String NtPath.sep "" else dir)%string,
     out w path_messages).
Proof.
  intros _ Hsplit.
  rewrite get_image_path_run, (after_last_slash_segment pre "" eq_refl).
  unfold NtPath.join, NtPath.join_step. rewrite Hsplit.
  change (NtPath.splitdrive "") with ("", ""). cbn [NtPath.starts_with_sep NtPath.nonempty andb].
  unfold NtPath.join_finish. cbn [NtPath.nonempty andb].
  rewrite andb_false_r. rewrite append_nil_r. reflexivity.
Qed.

Lemma get_image_path_empty_segment_witness :
  get_image_path ("https://example" ++ String "/" "") "images" Sample.fresh
  = (Ret "images\", out Sample.fresh path_messages).
Proof.
  exact (get_image_path_empty_segment Sample.fresh "images" "https://example"
           eq_refl eq_refl).
Defined.
